(** * AutoXloo sales assistant: routing, criteria extraction, inventory filter

    A shallow embedding of the decision logic of [backend/agents/crew.py],
    of the booking and CRM tools of [backend/agents/tools.py] and of the
    inventory and statistics endpoints of [backend/main.py].

    Text is modelled as Stdlib [string] (a sequence of 8-bit characters);
    [lower], [upper] and [title] act on the ASCII letters, which is what the
    Python methods do on ASCII text.  The hosted model, the vector index and
    the random source are external: every call of [process_customer_query]
    receives their answers for that call in an [Env] record. *)

From Stdlib Require Import ZArith Ascii String List Permutation Bool Lia.
From Stdlib Require Import DecimalString DecimalNat.
From stdpp Require Import base option list gmap strings.

Local Open Scope string_scope.

(** ** Python string primitives *)

Module Py.

Definition is_upper (c : ascii) : bool :=
  let n := nat_of_ascii c in (65 <=? n)%nat && (n <=? 90)%nat.

Definition is_lower (c : ascii) : bool :=
  let n := nat_of_ascii c in (97 <=? n)%nat && (n <=? 122)%nat.

Definition is_digit (c : ascii) : bool :=
  let n := nat_of_ascii c in (48 <=? n)%nat && (n <=? 57)%nat.

Definition is_alpha (c : ascii) : bool := is_upper c || is_lower c.

Definition lower_char (c : ascii) : ascii :=
  if is_upper c then ascii_of_nat (nat_of_ascii c + 32) else c.

Definition upper_char (c : ascii) : ascii :=
  if is_lower c then ascii_of_nat (nat_of_ascii c - 32) else c.

(** [str.lower()] *)
Fixpoint lower (s : string) : string :=
  match s with
  | EmptyString => EmptyString
  | String c s' => String (lower_char c) (lower s')
  end.

(** [str.upper()] *)
Fixpoint upper (s : string) : string :=
  match s with
  | EmptyString => EmptyString
  | String c s' => String (upper_char c) (upper s')
  end.

(** [str.title()]: the first letter of every run of letters is upper-cased,
    the other letters of the run are lower-cased.  [prev] tells whether the
    previous character was a letter. *)
Fixpoint title_from (prev : bool) (s : string) : string :=
  match s with
  | EmptyString => EmptyString
  | String c s' =>
      String (if is_alpha c then (if prev then lower_char c else upper_char c) else c)
             (title_from (is_alpha c) s')
  end.

Definition title (s : string) : string := title_from false s.

(** [s.startswith(p)] *)
Fixpoint startswith (p s : string) : bool :=
  match p, s with
  | EmptyString, _ => true
  | String _ _, EmptyString => false
  | String a p', String b s' => if Ascii.eqb a b then startswith p' s' else false
  end.

(** [sub in s] on strings *)
Fixpoint contains (sub s : string) : bool :=
  startswith sub s ||
  match s with
  | EmptyString => false
  | String _ s' => contains sub s'
  end.

(** [s[:n]]: a slice clamps at the end of the string. *)
Definition slice_to (n : nat) (s : string) : string := String.substring 0 n s.

(** [s[a:b]] for [a <= b]. *)
Definition slice (a b : nat) (s : string) : string := String.substring a (b - a) s.

(** [any(k in s for k in keywords)] *)
Definition any_in (keywords : list string) (s : string) : bool :=
  existsb (fun k => contains k s) keywords.

(** every character of [s] satisfies [p] *)
Fixpoint all_chars (p : ascii -> bool) (s : string) : bool :=
  match s with
  | EmptyString => true
  | String c s' => p c && all_chars p s'
  end.

(** [s.isascii()]: every character is below 128.  On such text [lower] and
    [upper] above are Python's methods. *)
Definition is_ascii (s : string) : bool :=
  all_chars (fun c => (nat_of_ascii c <? 128)%nat) s.

(** The mathematical meaning of [in]: [sub] occurs in [s]. *)
Definition Substring (sub s : string) : Prop :=
  exists pre post : string, s = pre +:+ sub +:+ post.

End Py.

(** ** [uuid.uuid4()] and its string form *)

Module Uuid.

(** A UUID is its 128-bit integer ([UUID.int]); [uuid4] draws it from the
    operating system, so the drawn value is an input of the model. *)
Definition hex_char (d : Z) : ascii :=
  match String.get (Z.to_nat d) "0123456789abcdef" with
  | Some c => c
  | None => "0"%char
  end.

(** The [k]-th hexadecimal digit of [n], counted from the least significant. *)
Definition nibble (k : nat) (n : Z) : Z :=
  Z.land (Z.shiftr n (4 * Z.of_nat k)) 15.

(** ['%0kx' % n]: the [k] low hexadecimal digits of [n], most significant
    first (all of [n] when [0 <= n < 16^k], as for a UUID with [k = 32]). *)
Fixpoint hex_digits (k : nat) (n : Z) : string :=
  match k with
  | O => EmptyString
  | S k' => String (hex_char (nibble k' n)) (hex_digits k' n)
  end.

(** [str(u)]: the 8-4-4-4-12 grouping of the 32 digits. *)
Definition str (u : Z) : string :=
  let hex := hex_digits 32 u in
  Py.slice 0 8 hex +:+ "-" +:+ Py.slice 8 12 hex +:+ "-" +:+ Py.slice 12 16 hex
    +:+ "-" +:+ Py.slice 16 20 hex +:+ "-" +:+ Py.slice 20 32 hex.

End Uuid.

(** ** Data model *)

(** The sub-records of a vehicle, each read with [.get(key, 'N/A')]. *)
Record FuelEconomy := mkFuelEconomy { combined_mpg : option Z }.
Record SafetyRating := mkSafetyRating { overall : option Z }.

(** A vehicle record of the inventory.  The six keys the set-up script
    requires ([stock_number], [make], [model], [year], [price], [category])
    are always there; the other keys the code reads are optional.  The search
    reads [features] and [available] with [v.get(..., default)]; the
    formatter of the research route reads [features], [mileage],
    [condition], [fuel_economy] and [safety_rating] with [v[...]], which
    raises on a record without the key. *)
Record Vehicle := mkVehicle {
  stock_number : string;
  make : string;
  model : string;
  year : Z;
  category : string;
  price : Z;
  features : option (list string);
  available : option bool;
  mileage : option Z;
  condition : option string;
  fuel_economy : option FuelEconomy;
  safety_rating : option SafetyRating
}.

(** The criteria dict: every key is optional. *)
Record Criteria := mkCriteria {
  max_price : option Z;
  min_price : option Z;
  c_category : option string;
  c_make : option string;
  c_year : option Z;
  c_features : option (list string)
}.

Definition empty_criteria : Criteria :=
  mkCriteria None None None None None None.

Definition set_max_price (p : Z) (c : Criteria) : Criteria :=
  mkCriteria (Some p) (min_price c) (c_category c) (c_make c) (c_year c) (c_features c).

Definition set_category (s : string) (c : Criteria) : Criteria :=
  mkCriteria (max_price c) (min_price c) (Some s) (c_make c) (c_year c) (c_features c).

Definition set_make (s : string) (c : Criteria) : Criteria :=
  mkCriteria (max_price c) (min_price c) (c_category c) (Some s) (c_year c) (c_features c).

Definition set_features (fs : list string) (c : Criteria) : Criteria :=
  mkCriteria (max_price c) (min_price c) (c_category c) (c_make c) (c_year c) (Some fs).

(** ** The Inventory Filter: [AutoXlooCrew._search_inventory] *)

(** [feature in v.get('features', [])] *)
Definition has_feature (feature : string) (v : Vehicle) : bool :=
  existsb (String.eqb feature) (default [] (features v)).

(** [v.get('available', True)] *)
Definition is_available (v : Vehicle) : bool := default true (available v).

Definition filter_max_price (criteria : Criteria) (results : list Vehicle) : list Vehicle :=
  match max_price criteria with
  | Some p => List.filter (fun v => price v <=? p)%Z results
  | None => results
  end.

Definition filter_min_price (criteria : Criteria) (results : list Vehicle) : list Vehicle :=
  match min_price criteria with
  | Some p => List.filter (fun v => price v >=? p)%Z results
  | None => results
  end.

Definition filter_category (criteria : Criteria) (results : list Vehicle) : list Vehicle :=
  match c_category criteria with
  | Some c => List.filter (fun v => String.eqb (Py.lower (category v)) (Py.lower c)) results
  | None => results
  end.

Definition filter_make (criteria : Criteria) (results : list Vehicle) : list Vehicle :=
  match c_make criteria with
  | Some m => List.filter (fun v => String.eqb (Py.lower (make v)) (Py.lower m)) results
  | None => results
  end.

Definition filter_year (criteria : Criteria) (results : list Vehicle) : list Vehicle :=
  match c_year criteria with
  | Some y => List.filter (fun v => year v =? y)%Z results
  | None => results
  end.

(** The loop [for feature in criteria['features']] narrows once per feature. *)
Definition filter_features (criteria : Criteria) (results : list Vehicle) : list Vehicle :=
  match c_features criteria with
  | Some fs =>
      fold_left (fun res feature => List.filter (has_feature feature) res) fs results
  | None => results
  end.

Definition filter_available (results : list Vehicle) : list Vehicle :=
  List.filter is_available results.

Definition _search_inventory (inventory : list Vehicle) (criteria : Criteria)
  : list Vehicle :=
  let results := inventory in
  let results := filter_max_price criteria results in
  let results := filter_min_price criteria results in
  let results := filter_category criteria results in
  let results := filter_make criteria results in
  let results := filter_year criteria results in
  let results := filter_features criteria results in
  let results := filter_available results in
  take 10 results.

(** The test each criterion applies to a record; an absent criterion passes
    every record. *)
Definition meets_max_price (c : Criteria) (v : Vehicle) : bool :=
  match max_price c with Some p => (price v <=? p)%Z | None => true end.

Definition meets_min_price (c : Criteria) (v : Vehicle) : bool :=
  match min_price c with Some p => (price v >=? p)%Z | None => true end.

Definition meets_category (c : Criteria) (v : Vehicle) : bool :=
  match c_category c with
  | Some k => String.eqb (Py.lower (category v)) (Py.lower k)
  | None => true
  end.

Definition meets_make (c : Criteria) (v : Vehicle) : bool :=
  match c_make c with
  | Some m => String.eqb (Py.lower (make v)) (Py.lower m)
  | None => true
  end.

Definition meets_year (c : Criteria) (v : Vehicle) : bool :=
  match c_year c with Some y => (year v =? y)%Z | None => true end.

Definition meets_features (c : Criteria) (v : Vehicle) : bool :=
  match c_features c with
  | Some fs => forallb (fun feature => has_feature feature v) fs
  | None => true
  end.

Definition meets (c : Criteria) (v : Vehicle) : bool :=
  meets_max_price c v && meets_min_price c v && meets_category c v
  && meets_make c v && meets_year c v && meets_features c v.

(** The six criterion stages, in the order of the source. *)
Definition criterion_filters (c : Criteria) : list (list Vehicle -> list Vehicle) :=
  [ filter_max_price c; filter_min_price c; filter_category c;
    filter_make c; filter_year c; filter_features c ].

(** [results = f(results)] for each stage in turn. *)
Definition apply_in_order {A : Type} (stages : list (list A -> list A)) (l : list A)
  : list A :=
  fold_left (fun results f => f results) stages l.

(** A stage of the search narrows by a test on single records. *)
Definition narrowing {A : Type} (f : list A -> list A) : Prop :=
  exists p : A -> bool, forall l, f l = List.filter p l.

(** What the search asks of a record, criterion by criterion, as a
    proposition: the reading of the filter chain that the theorems compare
    the code with. *)
Record Wanted (c : Criteria) (v : Vehicle) : Prop := mkWanted {
  wanted_max : forall p, max_price c = Some p -> (price v <= p)%Z;
  wanted_min : forall p, min_price c = Some p -> (p <= price v)%Z;
  wanted_category : forall k, c_category c = Some k ->
                    Py.lower (category v) = Py.lower k;
  wanted_make : forall m, c_make c = Some m -> Py.lower (make v) = Py.lower m;
  wanted_year : forall y, c_year c = Some y -> year v = y;
  wanted_features : forall fs f, c_features c = Some fs -> In f fs ->
                    In f (default [] (features v));
  wanted_available : available v <> Some false
}.

(** ** The Criteria Extractor: [AutoXlooCrew._extract_search_criteria] *)

Definition makes : list string :=
  ["honda"; "toyota"; "ford"; "chevrolet"; "nissan"; "subaru"; "mazda"].

Definition extract_price (message_lower : string) (criteria : Criteria) : Criteria :=
  if Py.contains "under" message_lower || Py.contains "below" message_lower then
    if Py.contains "30k" message_lower || Py.contains "30000" message_lower
       || Py.contains "30,000" message_lower
    then set_max_price 30000 criteria
    else if Py.contains "35k" message_lower || Py.contains "35000" message_lower
    then set_max_price 35000 criteria
    else if Py.contains "25k" message_lower || Py.contains "25000" message_lower
    then set_max_price 25000 criteria
    else criteria
  else criteria.

Definition extract_category (message_lower : string) (criteria : Criteria) : Criteria :=
  if Py.contains "suv" message_lower then set_category "suv" criteria
  else if Py.contains "truck" message_lower then set_category "truck" criteria
  else if Py.contains "sedan" message_lower then set_category "sedan" criteria
  else if Py.contains "electric" message_lower || Py.contains "ev" message_lower
  then set_category "electric" criteria
  else criteria.

(** [for make in makes: if make in message_lower: criteria['make'] = make.title()]:
    the loop has no [break], every matching name overwrites the key. *)
Definition extract_make (message_lower : string) (criteria : Criteria) : Criteria :=
  fold_left
    (fun crit mk => if Py.contains mk message_lower then set_make (Py.title mk) crit else crit)
    makes criteria.

Definition extract_features (message_lower : string) (criteria : Criteria) : Criteria :=
  let fs : list string := [] in
  let fs := if Py.contains "safety" message_lower || Py.contains "safe" message_lower
            then (fs ++ ["Blind Spot Monitoring"])%list else fs in
  let fs := if Py.contains "navigation" message_lower || Py.contains "nav" message_lower
            then (fs ++ ["Navigation System"])%list else fs in
  let fs := if Py.contains "leather" message_lower
            then (fs ++ ["Leather Seats"])%list else fs in
  match fs with
  | [] => criteria
  | _ :: _ => set_features fs criteria
  end.

Definition _extract_search_criteria (message : string) : Criteria :=
  let criteria := empty_criteria in
  let message_lower := Py.lower message in
  let criteria := extract_price message_lower criteria in
  let criteria := extract_category message_lower criteria in
  let criteria := extract_make message_lower criteria in
  let criteria := extract_features message_lower criteria in
  criteria.

(** The make loop, read on the [make] key alone. *)
Definition make_step (message_lower : string) (found : option string) (mk : string)
  : option string :=
  if Py.contains mk message_lower then Some (Py.title mk) else found.

(** ** The Knowledge Enricher: [AutoXlooCrew._get_vehicle_specs] *)

Record KnowledgeEntry := mkKnowledgeEntry {
  kb_make : string;
  kb_model : string;
  (** [specs['features'].get('safety', [])]; [None] when the entry has no
      [features] key or its [features] has no [safety] key *)
  kb_features_safety : option (list string)
}.

Fixpoint _get_vehicle_specs (knowledge_base : list KnowledgeEntry) (mk mdl : string)
  : option KnowledgeEntry :=
  match knowledge_base with
  | [] => None
  | entry :: rest =>
      if String.eqb (Py.lower (kb_make entry)) (Py.lower mk)
         && String.eqb (Py.lower (kb_model entry)) (Py.lower mdl)
      then Some entry
      else _get_vehicle_specs rest mk mdl
  end.

(** The test of the lookup loop, as a proposition. *)
Definition same_model (mk mdl : string) (entry : KnowledgeEntry) : Prop :=
  Py.lower (kb_make entry) = Py.lower mk /\ Py.lower (kb_model entry) = Py.lower mdl.

(** ** Tasks handed to the agent framework *)

Inductive AgentRole := research_agent | scheduling_agent | qualifier_agent.

(** What [_format_vehicle_recommendation] puts into its text for one
    vehicle: the record (year, make, model, stock number, price), the
    mileage, the condition, the combined MPG and the overall rating ([None]
    prints N/A), the first five features, and the knowledge-base entry the
    engine lines are taken from. *)
Record Recommendation := mkRecommendation {
  rec_vehicle : Vehicle;
  rec_mileage : Z;
  rec_condition : string;
  rec_combined_mpg : option Z;
  rec_overall : option Z;
  rec_key_features : list string;
  rec_specs : option KnowledgeEntry
}.

(** [AutoXlooCrew._format_vehicle_recommendation]: [None] is the [KeyError]
    of [vehicle['mileage']], [vehicle['condition']],
    [vehicle['fuel_economy']], [vehicle['safety_rating']] or
    [vehicle['features']] on a record without that key. *)
Definition _format_vehicle_recommendation (knowledge_base : list KnowledgeEntry)
    (vehicle : Vehicle) : option Recommendation :=
  let specs := _get_vehicle_specs knowledge_base (make vehicle) (model vehicle) in
  match mileage vehicle, condition vehicle, fuel_economy vehicle,
        safety_rating vehicle, features vehicle with
  | Some miles, Some cond, Some economy, Some rating, Some fs =>
      Some (mkRecommendation vehicle miles cond (combined_mpg economy)
              (overall rating) (take 5 fs) specs)
  | _, _, _, _, _ => None
  end.

(** [[self._format_vehicle_recommendation(v) for v in vehicles]]: the first
    vehicle that raises ends the comprehension. *)
Fixpoint format_all (knowledge_base : list KnowledgeEntry) (vehicles : list Vehicle)
  : option (list Recommendation) :=
  match vehicles with
  | [] => Some []
  | v :: rest =>
      match _format_vehicle_recommendation knowledge_base v with
      | None => None
      | Some r =>
          match format_all knowledge_base rest with
          | None => None
          | Some rs => Some (r :: rs)
          end
      end
  end.

(** The record has every key the formatter subscripts. *)
Definition has_display_keys (v : Vehicle) : bool :=
  bool_decide (is_Some (mileage v)) && bool_decide (is_Some (condition v))
  && bool_decide (is_Some (fuel_economy v)) && bool_decide (is_Some (safety_rating v))
  && bool_decide (is_Some (features v)).

(** The scheduling prompt is rendered in full.  The research prompt is kept as
    the values its template interpolates: the message, the criteria, what the
    formatter shows of the at most three vehicles, and the knowledge-base
    context text. *)
Inductive Prompt :=
| SchedulingPrompt (text : string)
| ResearchPrompt (message : string) (criteria : Criteria)
    (shown : list Recommendation) (kb_context : string).

Record Task := mkTask {
  description : Prompt;
  agent : AgentRole;
  expected_output : string
}.

Definition newline : string := String (ascii_of_nat 10) EmptyString.
Definition dquote : string := String (ascii_of_nat 34) EmptyString.
Definition indent : string := "            ".

(** The lines of a triple-quoted template, each at the source indentation. *)
Definition template (lines : list string) : string :=
  newline +:+ fold_right (fun l acc => indent +:+ l +:+ newline +:+ acc) indent lines.

(** [TD-{str(uuid.uuid4())[:5].upper()}] *)
Definition scheduling_confirmation (u : Z) : string :=
  "TD-" +:+ Py.upper (Py.slice_to 5 (Uuid.str u)).

Definition _create_scheduling_task (u : Z) (message : string) : Task :=
  mkTask
    (SchedulingPrompt (template
      [ "Customer message: " +:+ dquote +:+ message +:+ dquote;
        EmptyString;
        "The customer wants to schedule a test drive or appointment.";
        "Generate a confirmation with:";
        "- Appointment date/time";
        "- Confirmation number (format: TD-XXXXX)";
        "- Dealership location";
        "- What to bring";
        "- Contact info";
        EmptyString;
        "Mock appointment booking (for demo purposes):";
        "- Available slots: Monday-Saturday, 9 AM - 6 PM";
        "- Location: AutoXloo Premium Dealership, 123 Main St";
        "- Confirmation #: " +:+ scheduling_confirmation u ]))
    scheduling_agent
    "A professional appointment confirmation with all details".

(** [', '.join(l)] *)
Fixpoint join_comma (l : list string) : string :=
  match l with
  | [] => EmptyString
  | [x] => x
  | x :: rest => x +:+ ", " +:+ join_comma rest
  end.

(** The safety-feature lines of the knowledge-base context, one per shown
    vehicle whose entry lists safety features. *)
Definition safety_context (knowledge_base : list KnowledgeEntry)
    (shown : list Vehicle) : string :=
  fold_left
    (fun kb_context vehicle =>
       match _get_vehicle_specs knowledge_base (make vehicle) (model vehicle) with
       | Some specs =>
           match kb_features_safety specs with
           | Some (f :: fs) =>
               kb_context +:+ newline +:+ newline +:+ make vehicle +:+ " "
                 +:+ model vehicle +:+ " Safety Features: "
                 +:+ join_comma (take 5 (f :: fs))
           | _ => kb_context
           end
       | None => kb_context
       end)
    shown EmptyString.

(** The task of the research route, or [None] when formatting one of the
    first three matches raises: no task is built then. *)
Definition _create_vehicle_search_task (inventory : list Vehicle)
    (knowledge_base : list KnowledgeEntry) (semantic_results : string)
    (message : string) : option Task :=
  let criteria := _extract_search_criteria message in
  let matching_vehicles := _search_inventory inventory criteria in
  match format_all knowledge_base (take 3 matching_vehicles) with
  | None => None
  | Some vehicles_text =>
      let kb_context := safety_context knowledge_base (take 3 matching_vehicles) in
      let kb_context :=
        match semantic_results with
        | EmptyString => kb_context
        | _ => kb_context +:+ newline +:+ semantic_results
        end in
      Some (mkTask
              (ResearchPrompt message criteria vehicles_text kb_context)
              research_agent
              "Concise response with table and bullets, under 150 words")
  end.

(** ** The Conversation Store and [AutoXlooCrew.process_customer_query] *)

Inductive Role := user | assistant.

Record Turn := mkTurn {
  role : Role;
  content : string;
  timestamp : string
}.

Record Action := mkAction {
  action_type : string;
  agents : list string
}.

Record Reply := mkReply {
  response : string;
  conversation_id : string;
  actions_taken : list Action;
  agents_used : list string
}.

(** What the outside world answers during one call: the three [uuid4] draws
    (for a missing identifier, for the timestamp, for the confirmation
    code), the text of the semantic search (empty when unavailable: that
    function catches its own errors), and the agent framework's [kickoff],
    which returns the generated text or raises ([None]). *)
Record Env := mkEnv {
  uuid_conversation : Z;
  uuid_timestamp : Z;
  uuid_confirmation : Z;
  semantic_results : string;
  kickoff : Task -> option string
}.

Definition scheduling_keywords : list string :=
  ["schedule"; "test drive"; "appointment"; "book"; "visit"].

Definition interest_keywords : list string :=
  ["interested"; "want"; "need"; "looking for"; "buy"].

Definition apology : string :=
  "I apologize, I encountered an error. Please try again.".

(** [if not conversation_id: conversation_id = str(uuid.uuid4())]:
    [None] and the empty string are both falsy. *)
Definition resolve_id (env : Env) (conversation_id : option string) : string :=
  match conversation_id with
  | None | Some EmptyString => Uuid.str (uuid_conversation env)
  | Some cid => cid
  end.

(** The two statements on the store: create the empty list when the key is
    new, then append the user turn in place. *)
Definition record_turn (cid : string) (t : Turn)
    (conversations : gmap string (list Turn)) : gmap string (list Turn) :=
  let conversations :=
    match conversations !! cid with
    | None => <[cid := []]> conversations
    | Some _ => conversations
    end in
  alter (fun turns => turns ++ [t])%list cid conversations.

Section Crew.

Variable inventory : list Vehicle.
Variable knowledge_base : list KnowledgeEntry.

(** The body of the [try] block: the agents used and the response, or
    [None] when an exception escapes it, raised by the agent framework or,
    on the research route, while the task is built. *)
Definition dispatch (env : Env) (message : string) : option (list string * string) :=
  let message_lower := Py.lower message in
  let agents_used : list string := [] in
  if Py.any_in scheduling_keywords message_lower then
    let agents_used := (agents_used ++ ["scheduling"])%list in
    let task := _create_scheduling_task (uuid_confirmation env) message in
    match kickoff env task with
    | None => None
    | Some result => Some (agents_used, result)
    end
  else
    let agents_used := (agents_used ++ ["research"])%list in
    match
      _create_vehicle_search_task inventory knowledge_base (semantic_results env) message
    with
    | None => None
    | Some task =>
        match kickoff env task with
        | None => None
        | Some result =>
            let agents_used :=
              if Py.any_in interest_keywords message_lower
              then (agents_used ++ ["qualifier"])%list else agents_used in
            Some (agents_used, result)
        end
    end.

(** An exception escapes the [try] block: on the scheduling route the agent
    framework raises on the scheduling task; on the research route the task
    cannot be built, or the framework raises on it. *)
Definition try_body_raises (env : Env) (message : string) : Prop :=
  if Py.any_in scheduling_keywords (Py.lower message) then
    kickoff env (_create_scheduling_task (uuid_confirmation env) message) = None
  else
    match
      _create_vehicle_search_task inventory knowledge_base (semantic_results env) message
    with
    | None => True
    | Some task => kickoff env task = None
    end.

Definition process_customer_query (env : Env)
    (conversations : gmap string (list Turn))
    (message : string) (conversation_id : option string)
  : gmap string (list Turn) * Reply :=
  let cid := resolve_id env conversation_id in
  let conversations :=
    record_turn cid (mkTurn user message (Uuid.str (uuid_timestamp env))) conversations in
  match dispatch env message with
  | Some (agents_used, response) =>
      (conversations,
       mkReply response cid [mkAction "agent_response" agents_used] agents_used)
  | None =>
      (conversations, mkReply apology cid [] [])
  end.

(** A session: the calls made one after the other on the same crew, each
    with the world's answers for it. *)
Fixpoint run_calls (conversations : gmap string (list Turn))
    (calls : list (Env * string * option string)) : gmap string (list Turn) :=
  match calls with
  | [] => conversations
  | (env, message, conversation_id) :: rest =>
      run_calls (fst (process_customer_query env conversations message conversation_id)) rest
  end.

End Crew.

(** The turn a call stores. *)
Definition turn_of (call : Env * string) : Turn :=
  mkTurn user (snd call) (Uuid.str (uuid_timestamp (fst call))).

(** The calls of a session that all carry the identifier [c]. *)
Definition with_id (c : string) (calls : list (Env * string))
  : list (Env * string * option string) :=
  map (fun call => (fst call, snd call, Some c)) calls.

(** ** The booking tool: [tools.book_test_drive] *)

Record Appointment := mkAppointment {
  confirmation_number : string;
  customer_name : string;
  vehicle_model : string;
  date_time : string;
  contact_info : string;
  created_at : string;
  status : string;
  location : string
}.

(** [f"TD-{str(uuid.uuid4())[:8].upper()}"] *)
Definition booking_confirmation (u : Z) : string :=
  "TD-" +:+ Py.upper (Py.slice_to 8 (Uuid.str u)).

(** [stored] is the content of the appointments file ([None] when the file
    does not exist, which [_load_json] reads as the empty list); [u] is the
    [uuid4] draw and [now] the clock's ISO text.  The result is the content
    saved back and the text returned to the agent. *)
Definition book_test_drive (u : Z) (now : string) (stored : option (list Appointment))
    (customer vehicle when contact : string) : list Appointment * string :=
  let appointments := default [] stored in
  let confirmation_number := booking_confirmation u in
  let appointment :=
    mkAppointment confirmation_number customer vehicle when contact now
      "pending" "AutoXloo Premium Dealership, 123 Main St" in
  let appointments := (appointments ++ [appointment])%list in
  (appointments,
   "✓ Test drive request created. Confirmation: " +:+ confirmation_number
     +:+ ". Our team will contact you to confirm details.").

(** The pattern [TD-] followed by exactly five upper-case alphanumerics. *)
Definition is_upper_alnum (c : ascii) : bool := Py.is_digit c || Py.is_upper c.

Definition td_code_ok (s : string) : bool :=
  Py.startswith "TD-" s
  && (String.length s =? 8)%nat
  && Py.all_chars is_upper_alnum (String.substring 3 (String.length s - 3) s).

(** ** The CRM tool: [tools.create_crm_lead] *)

(** [str(n)] for a natural number: its decimal digits. *)
Definition str_nat (n : nat) : string := NilEmpty.string_of_uint (Nat.to_uint n).

Record Lead := mkLead {
  lead_id : string;
  lead_customer_name : string;
  lead_interest : string;
  lead_budget : string;
  lead_timeline : string;
  lead_contact_info : string;
  lead_created_at : string;
  lead_status : string
}.

(** [f"LEAD-{len(leads) + 1001}"] *)
Definition next_lead_id (leads : list Lead) : string :=
  "LEAD-" +:+ str_nat (length leads + 1001).

(** [stored] is the content of the leads file ([None] when it does not
    exist); the result is the content saved back and the text returned. *)
Definition create_crm_lead (now : string) (stored : option (list Lead))
    (customer interest budget timeline contact : string) : list Lead * string :=
  let leads := default [] stored in
  let lead :=
    mkLead (next_lead_id leads) customer interest budget timeline contact now "new" in
  let leads := (leads ++ [lead])%list in
  (leads, "✓ Lead created in CRM: " +:+ lead_id lead).

(** The arguments of one call of the tool, with the clock's answer. *)
Record LeadRequest := mkLeadRequest {
  lr_now : string;
  lr_customer : string;
  lr_interest : string;
  lr_budget : string;
  lr_timeline : string;
  lr_contact : string
}.

(** Calls made one after the other, each reading the file the previous one
    saved. *)
Fixpoint create_leads (stored : option (list Lead)) (requests : list LeadRequest)
  : list Lead :=
  match requests with
  | [] => default [] stored
  | r :: rest =>
      create_leads
        (Some (fst (create_crm_lead (lr_now r) stored (lr_customer r) (lr_interest r)
                      (lr_budget r) (lr_timeline r) (lr_contact r))))
        rest
  end.

Record BookingRequest := mkBookingRequest {
  br_uuid : Z;
  br_now : string;
  br_customer : string;
  br_vehicle : string;
  br_when : string;
  br_contact : string
}.

(** Bookings made one after the other on the appointments file. *)
Fixpoint book_all (stored : option (list Appointment)) (requests : list BookingRequest)
  : list Appointment :=
  match requests with
  | [] => default [] stored
  | r :: rest =>
      book_all
        (Some (fst (book_test_drive (br_uuid r) (br_now r) stored (br_customer r)
                      (br_vehicle r) (br_when r) (br_contact r))))
        rest
  end.

(** ** The HTTP surface: [backend/main.py] *)

(** [l[:limit]] for an integer [limit]: a negative bound counts from the
    end of the list, and every bound clamps. *)
Definition slice_list {A : Type} (limit : Z) (l : list A) : list A :=
  if (0 <=? limit)%Z then take (Z.to_nat limit) l
  else take (length l - Z.to_nat (- limit)) l.

(** [GET /api/inventory?limit=N]: the total and the vehicles returned. *)
Definition get_inventory (inventory_data : list Vehicle) (limit : Z)
  : nat * list Vehicle :=
  (length inventory_data, slice_list limit inventory_data).

Inductive HttpResult (A : Type) :=
| Ok (body : A)
| HttpError (status_code : Z) (detail : string).

Arguments Ok {A} body.
Arguments HttpError {A} status_code detail.

(** [GET /api/inventory/{stock_number}]: [next(...)] takes the first vehicle
    with that stock number, and none raises the 404 error. *)
Definition get_vehicle (inventory_data : list Vehicle) (stock : string)
  : HttpResult Vehicle :=
  match List.find (fun v => String.eqb (stock_number v) stock) inventory_data with
  | Some vehicle => Ok vehicle
  | None => HttpError 404 "Vehicle not found"
  end.

(** [min(...)] and [max(...)] over a non-empty sequence, [sum(...)]. *)
Definition min_of (x : Z) (xs : list Z) : Z := fold_left Z.min xs x.
Definition max_of (x : Z) (xs : list Z) : Z := fold_left Z.max xs x.
Definition sum_of (xs : list Z) : Z := fold_left Z.add xs 0%Z.

Record PriceRange := mkPriceRange {
  price_min : Z;
  price_max : Z;
  price_avg : Z
}.

(** The [price_range] entry of [GET /api/stats]; [//] is floor division. *)
Definition stats_price_range (inventory_data : list Vehicle) : PriceRange :=
  match map price inventory_data with
  | [] => mkPriceRange 0 0 0
  | p :: ps =>
      mkPriceRange (min_of p ps) (max_of p ps)
        (sum_of (p :: ps) / Z.of_nat (length inventory_data))
  end.

(** The [available] entry: [sum(1 for v in ... if v.get('available', True))]. *)
Definition stats_available (inventory_data : list Vehicle) : nat :=
  length (List.filter is_available inventory_data).

(** [_get_category_breakdown] reads one key of each record, with
    [vehicle.get('category', 'other')].  [category_keys] holds that key for
    the vehicles of [inventory_data] in order, [None] for a record without
    it; the loop does [categories[cat] = categories.get(cat, 0) + 1]. *)
Definition _get_category_breakdown (category_keys : list (option string))
  : gmap string nat :=
  fold_left
    (fun categories key =>
       let cat := default "other" key in
       <[cat := default 0 (categories !! cat) + 1]> categories)
    category_keys ∅.

(** A lower-case hexadecimal digit. *)
Definition is_lower_hex (c : ascii) : bool :=
  Py.is_digit c || ((97 <=? nat_of_ascii c)%nat && (nat_of_ascii c <=? 102)%nat).

(** ** Sample data *)

(** A small showroom used in the examples below. *)
Definition suv_28000 : Vehicle :=
  mkVehicle "AX10001" "Honda" "CR-V" 2023 "suv" 28000
    (Some ["Navigation System"; "Leather Seats"]) (Some true)
    (Some 12000%Z) (Some "Used") (Some (mkFuelEconomy (Some 30%Z)))
    (Some (mkSafetyRating (Some 5%Z))).

Definition suv_32000 : Vehicle :=
  mkVehicle "AX10002" "Toyota" "RAV4" 2024 "suv" 32000
    (Some ["Blind Spot Monitoring"]) None
    (Some 10%Z) (Some "New") (Some (mkFuelEconomy None)) (Some (mkSafetyRating None)).

Definition sedan_sold : Vehicle :=
  mkVehicle "AX10003" "Honda" "Civic" 2022 "sedan" 21000 None (Some false)
    (Some 40000%Z) (Some "Used") (Some (mkFuelEconomy (Some 35%Z)))
    (Some (mkSafetyRating (Some 5%Z))).

Definition showroom : list Vehicle := [suv_28000; suv_32000; sedan_sold].

(** A record with the six required keys only: it passes the search, and
    the formatter raises on it. *)
Definition truck_bare : Vehicle :=
  mkVehicle "AX10004" "Ford" "F-150" 2021 "truck" 39000 None None None None None None.

Definition back_lot : list Vehicle := [suv_28000; truck_bare].

Definition picky : Criteria :=
  mkCriteria (Some 30000%Z) (Some 20000%Z) (Some "SUV") (Some "honda") (Some 2023%Z)
    (Some ["Leather Seats"; "Navigation System"]).

(** A world in which the generation works, and one in which it raises. *)
Definition env_up : Env :=
  mkEnv 0x3f2a9c1e5b7d4e8fa1b2c3d4e5f60718 0x0102030405064708890a0b0c0d0e0f10
    0xabcdef0123454678899aabbccddeeff0 EmptyString (fun _ => Some "Certainly.").

Definition env_down : Env :=
  mkEnv 0x3f2a9c1e5b7d4e8fa1b2c3d4e5f60718 0x0102030405064708890a0b0c0d0e0f10
    0xabcdef0123454678899aabbccddeeff0 EmptyString (fun _ => None).

(** * Properties *)

(** ** Sample evaluations *)

Example lower_mixed : Py.lower "I want an SUV, under 30K!" = "i want an suv, under 30k!".
Proof. reflexivity. Qed.

Example title_honda : Py.title "honda" = "Honda".
Proof. reflexivity. Qed.

Example contains_never : Py.contains "ev" "never" = true.
Proof. reflexivity. Qed.

Example contains_none : Py.contains "suv" "sedan" = false.
Proof. reflexivity. Qed.

Example uuid_str_sample :
  Uuid.str 0x3f2a9c1e5b7d4e8fa1b2c3d4e5f60718 = "3f2a9c1e-5b7d-4e8f-a1b2-c3d4e5f60718".
Proof. reflexivity. Qed.

Example extract_suv_30k :
  _extract_search_criteria "I'm looking for an SUV under 30k"
  = mkCriteria (Some 30000%Z) None (Some "suv") None None None.
Proof. reflexivity. Qed.

Example extract_two_makes :
  c_make (_extract_search_criteria "Honda or Toyota?") = Some "Toyota".
Proof. reflexivity. Qed.

Example td_code_ok_yes : td_code_ok "TD-3F2A9" = true.
Proof. reflexivity. Qed.

Example td_code_ok_long : td_code_ok "TD-3F2A9C1E" = false.
Proof. reflexivity. Qed.

Example td_code_ok_lowercase : td_code_ok "TD-3f2a9" = false.
Proof. reflexivity. Qed.

(** ** Substring search *)

Lemma startswith_app (p post : string) : Py.startswith p (p +:+ post) = true.
Proof.
  induction p as [|a p IH]; simpl; [reflexivity|].
  rewrite Ascii.eqb_refl. exact IH.
Qed.

Lemma startswith_inv (p s : string) :
  Py.startswith p s = true -> exists post, s = p +:+ post.
Proof.
  revert s. induction p as [|a p IH]; intros s H.
  - exists s. reflexivity.
  - destruct s as [|b s]; simpl in H; [discriminate|].
    destruct (Ascii.eqb a b) eqn:E; [|discriminate].
    apply Ascii.eqb_eq in E. subst b.
    destruct (IH s H) as [post ->]. exists post. reflexivity.
Qed.

Lemma contains_unfold (sub s : string) :
  Py.contains sub s =
  Py.startswith sub s
  || match s with EmptyString => false | String _ s' => Py.contains sub s' end.
Proof. destruct s; reflexivity. Qed.

(** [contains] decides occurrence as a substring. *)
Lemma contains_spec (sub s : string) :
  Py.contains sub s = true <-> Py.Substring sub s.
Proof.
  split.
  - induction s as [|c s IH]; rewrite contains_unfold; intros H;
      apply orb_true_iff in H as [H|H].
    + apply startswith_inv in H as [post ->]. exists EmptyString, post. reflexivity.
    + discriminate.
    + apply startswith_inv in H as [post ->]. exists EmptyString, post. reflexivity.
    + destruct (IH H) as (pre & post & ->). exists (String c pre), post. reflexivity.
  - intros (pre & post & ->).
    induction pre as [|c pre IH]; rewrite contains_unfold; apply orb_true_iff.
    + left. change (EmptyString +:+ sub +:+ post) with (sub +:+ post).
      apply startswith_app.
    + right. change (String c pre +:+ sub +:+ post) with (String c (pre +:+ sub +:+ post)).
      exact IH.
Qed.

Lemma contains_false (sub s : string) :
  Py.contains sub s = false <-> ~ Py.Substring sub s.
Proof.
  rewrite <- contains_spec. destruct (Py.contains sub s); split; intros H;
    try reflexivity; try discriminate; try (intros ?; discriminate).
  exfalso. apply H. reflexivity.
Qed.

Lemma any_in_spec (keywords : list string) (s : string) :
  Py.any_in keywords s = true <-> exists k, In k keywords /\ Py.Substring k s.
Proof.
  unfold Py.any_in. rewrite existsb_exists.
  split; intros (k & Hk & H); exists k; (split; [exact Hk|]); apply contains_spec; exact H.
Qed.

Lemma any_in_false (keywords : list string) (s : string) :
  Py.any_in keywords s = false <-> forall k, In k keywords -> ~ Py.Substring k s.
Proof.
  split.
  - intros H k Hk Hs.
    assert (Py.any_in keywords s = true) as E by (apply any_in_spec; eauto).
    congruence.
  - intros H. destruct (Py.any_in keywords s) eqn:E; [|reflexivity].
    apply any_in_spec in E as (k & Hk & Hs). destruct (H k Hk Hs).
Qed.

(** ** The Criteria Extractor *)

Lemma extract_features_keeps (message_lower : string) (criteria : Criteria) :
  c_make (extract_features message_lower criteria) = c_make criteria
  /\ c_category (extract_features message_lower criteria) = c_category criteria.
Proof.
  unfold extract_features.
  destruct (_ || _), (_ || _), (Py.contains "leather" _); split; reflexivity.
Qed.

Lemma extract_category_keeps_make (message_lower : string) (criteria : Criteria) :
  c_make (extract_category message_lower criteria) = c_make criteria.
Proof.
  unfold extract_category.
  repeat match goal with |- context [if ?b then _ else _] => destruct b end; reflexivity.
Qed.

Lemma extract_price_keeps (message_lower : string) (criteria : Criteria) :
  c_make (extract_price message_lower criteria) = c_make criteria
  /\ c_category (extract_price message_lower criteria) = c_category criteria.
Proof.
  unfold extract_price.
  repeat match goal with |- context [if ?b then _ else _] => destruct b end;
    split; reflexivity.
Qed.

Lemma make_loop_key (message_lower : string) (names : list string) (criteria : Criteria) :
  c_make (fold_left
            (fun crit mk =>
               if Py.contains mk message_lower then set_make (Py.title mk) crit else crit)
            names criteria)
  = fold_left (make_step message_lower) names (c_make criteria).
Proof.
  revert criteria. induction names as [|mk names IH]; intros criteria; simpl.
  - reflexivity.
  - rewrite IH. f_equal. unfold make_step.
    destruct (Py.contains mk message_lower); reflexivity.
Qed.

Lemma make_loop_no_match (message_lower : string) (names : list string)
    (found : option string) :
  (forall m, In m names -> ~ Py.Substring m message_lower) ->
  fold_left (make_step message_lower) names found = found.
Proof.
  revert found. induction names as [|mk names IH]; intros found H; simpl.
  - reflexivity.
  - rewrite IH by (intros m Hm; apply H; right; exact Hm).
    unfold make_step.
    assert (Py.contains mk message_lower = false) as ->
      by (apply contains_false, H; left; reflexivity).
    reflexivity.
Qed.

Lemma extract_make_key (message : string) :
  c_make (_extract_search_criteria message)
  = fold_left (make_step (Py.lower message)) makes None.
Proof.
  unfold _extract_search_criteria.
  rewrite (proj1 (extract_features_keeps _ _)).
  unfold extract_make. rewrite make_loop_key.
  rewrite extract_category_keeps_make, (proj1 (extract_price_keeps _ _)).
  reflexivity.
Qed.

(** C5, as amended: the make loop runs over the whole list without stopping,
    so the make criterion is the LAST name of the list (honda, toyota, ford,
    chevrolet, nissan, subaru, mazda) that occurs in the lower-cased message,
    in title case; a message with none of the names has no make field. *)
Theorem make_is_last_matching_name (message : string) :
  (forall (before : list string) (mk : string) (after : list string),
      makes = (before ++ mk :: after)%list ->
      Py.Substring mk (Py.lower message) ->
      (forall m, In m after -> ~ Py.Substring m (Py.lower message)) ->
      c_make (_extract_search_criteria message) = Some (Py.title mk))
  /\
  ((forall m, In m makes -> ~ Py.Substring m (Py.lower message)) ->
      c_make (_extract_search_criteria message) = None).
Proof.
  rewrite extract_make_key. split.
  - intros before mk after -> Hmk Hafter.
    rewrite fold_left_app. simpl.
    rewrite make_loop_no_match by exact Hafter.
    unfold make_step at 1.
    apply contains_spec in Hmk. rewrite Hmk. reflexivity.
  - intros H. apply make_loop_no_match. exact H.
Qed.

Lemma make_is_last_matching_name_witness :
  c_make (_extract_search_criteria "Honda or Toyota?") = Some "Toyota"
  /\ c_make (_extract_search_criteria "something roomy") = None.
Proof.
  split.
  - apply (proj1 (make_is_last_matching_name "Honda or Toyota?")
             ["honda"] "toyota" ["ford"; "chevrolet"; "nissan"; "subaru"; "mazda"]).
    + reflexivity.
    + apply contains_spec. reflexivity.
    + intros m Hm. apply contains_false.
      simpl in Hm. decompose [or] Hm; subst; try reflexivity. contradiction.
  - apply (proj2 (make_is_last_matching_name "something roomy")).
    intros m Hm. apply contains_false.
    simpl in Hm. decompose [or] Hm; subst; try reflexivity. contradiction.
Defined.

(** C5 as stated fails: in [Honda or Toyota?] both names occur, the first of
    the list is honda, and the stored make is Toyota. *)
Lemma make_first_match_counterexample :
  Py.Substring "honda" (Py.lower "Honda or Toyota?")
  /\ Py.Substring "toyota" (Py.lower "Honda or Toyota?")
  /\ c_make (_extract_search_criteria "Honda or Toyota?") <> Some (Py.title "honda").
Proof.
  split; [|split].
  - apply contains_spec. reflexivity.
  - apply contains_spec. reflexivity.
  - vm_compute. discriminate.
Qed.

(** C10: a lower-cased message that contains [ev] anywhere, and none of
    [suv], [truck], [sedan], gets the category [electric]. *)
Theorem ev_substring_means_electric (message : string) :
  Py.Substring "ev" (Py.lower message) ->
  ~ Py.Substring "suv" (Py.lower message) ->
  ~ Py.Substring "truck" (Py.lower message) ->
  ~ Py.Substring "sedan" (Py.lower message) ->
  c_category (_extract_search_criteria message) = Some "electric".
Proof.
  intros Hev Hsuv Htruck Hsedan.
  apply contains_spec in Hev.
  apply contains_false in Hsuv, Htruck, Hsedan.
  unfold _extract_search_criteria.
  rewrite (proj2 (extract_features_keeps _ _)).
  assert (forall names c,
             c_category (fold_left
               (fun crit mk =>
                  if Py.contains mk (Py.lower message)
                  then set_make (Py.title mk) crit else crit) names c)
             = c_category c) as Hloop.
  { induction names as [|mk names IH]; intros c; simpl; [reflexivity|].
    rewrite IH. destruct (Py.contains mk (Py.lower message)); reflexivity. }
  unfold extract_make. rewrite Hloop.
  unfold extract_category. rewrite Hsuv, Htruck, Hsedan, Hev, orb_true_r.
  reflexivity.
Qed.

Lemma ev_substring_means_electric_witness :
  c_category (_extract_search_criteria "I would NEVER believe seven of them")
  = Some "electric".
Proof.
  apply ev_substring_means_electric.
  - apply contains_spec. reflexivity.
  - apply contains_false. reflexivity.
  - apply contains_false. reflexivity.
  - apply contains_false. reflexivity.
Defined.

(** ** The Inventory Filter *)

Section Narrowing.

Context {A : Type}.

Lemma filter_all (l : list A) : List.filter (fun _ => true) l = l.
Proof. induction l as [|x l IH]; simpl; [|rewrite IH]; reflexivity. Qed.

Lemma filter_twice (p q : A -> bool) (l : list A) :
  List.filter q (List.filter p l) = List.filter (fun x => p x && q x) l.
Proof.
  induction l as [|x l IH]; simpl; [reflexivity|].
  destruct (p x); simpl; [destruct (q x)|]; rewrite IH; reflexivity.
Qed.

Lemma filter_swap (p q : A -> bool) (l : list A) :
  List.filter q (List.filter p l) = List.filter p (List.filter q l).
Proof.
  rewrite !filter_twice. apply List.filter_ext. intros x. apply andb_comm.
Qed.

Lemma filter_sublist (p : A -> bool) (l : list A) : List.filter p l `sublist_of` l.
Proof.
  induction l as [|x l IH]; simpl.
  - constructor.
  - destruct (p x); [apply sublist_skip | apply sublist_cons]; exact IH.
Qed.

Lemma narrowing_swap (f g : list A -> list A) (l : list A) :
  narrowing f -> narrowing g -> f (g l) = g (f l).
Proof.
  intros [p Hp] [q Hq]. rewrite !Hp, !Hq. apply filter_swap.
Qed.

Lemma apply_in_order_permutation (stages stages' : list (list A -> list A)) :
  Permutation stages stages' ->
  Forall narrowing stages ->
  forall l, apply_in_order stages l = apply_in_order stages' l.
Proof.
  induction 1 as [|f s s' _ IH|f g s|s1 s2 s3 H12 IH12 H23 IH23]; intros Hn l.
  - reflexivity.
  - simpl. apply IH. inversion Hn; assumption.
  - simpl. f_equal. inversion Hn as [|? ? Hg Hrest]; subst.
    inversion Hrest; subst. apply narrowing_swap; assumption.
  - rewrite IH12 by exact Hn. apply IH23.
    eapply Permutation_Forall; eassumption.
Qed.

End Narrowing.

Lemma filter_max_price_test (c : Criteria) (l : list Vehicle) :
  filter_max_price c l = List.filter (meets_max_price c) l.
Proof.
  unfold filter_max_price, meets_max_price.
  destruct (max_price c); [reflexivity | symmetry; apply filter_all].
Qed.

Lemma filter_min_price_test (c : Criteria) (l : list Vehicle) :
  filter_min_price c l = List.filter (meets_min_price c) l.
Proof.
  unfold filter_min_price, meets_min_price.
  destruct (min_price c); [reflexivity | symmetry; apply filter_all].
Qed.

Lemma filter_category_test (c : Criteria) (l : list Vehicle) :
  filter_category c l = List.filter (meets_category c) l.
Proof.
  unfold filter_category, meets_category.
  destruct (c_category c); [reflexivity | symmetry; apply filter_all].
Qed.

Lemma filter_make_test (c : Criteria) (l : list Vehicle) :
  filter_make c l = List.filter (meets_make c) l.
Proof.
  unfold filter_make, meets_make.
  destruct (c_make c); [reflexivity | symmetry; apply filter_all].
Qed.

Lemma filter_year_test (c : Criteria) (l : list Vehicle) :
  filter_year c l = List.filter (meets_year c) l.
Proof.
  unfold filter_year, meets_year.
  destruct (c_year c); [reflexivity | symmetry; apply filter_all].
Qed.

Lemma feature_loop_test (fs : list string) (l : list Vehicle) :
  fold_left (fun res feature => List.filter (has_feature feature) res) fs l
  = List.filter (fun v => forallb (fun feature => has_feature feature v) fs) l.
Proof.
  revert l. induction fs as [|f fs IH]; intros l; simpl.
  - symmetry. apply filter_all.
  - rewrite IH, filter_twice. reflexivity.
Qed.

Lemma filter_features_test (c : Criteria) (l : list Vehicle) :
  filter_features c l = List.filter (meets_features c) l.
Proof.
  unfold filter_features, meets_features.
  destruct (c_features c); [apply feature_loop_test | symmetry; apply filter_all].
Qed.

(** The search is one pass: keep the records that meet every criterion and
    are available, then cut to ten. *)
Lemma search_inventory_one_pass (inventory : list Vehicle) (c : Criteria) :
  _search_inventory inventory c
  = take 10 (List.filter (fun v => meets c v && is_available v) inventory).
Proof.
  unfold _search_inventory, filter_available.
  rewrite filter_features_test, filter_year_test, filter_make_test,
    filter_category_test, filter_min_price_test, filter_max_price_test.
  rewrite !filter_twice. f_equal. apply List.filter_ext. intros v.
  unfold meets. rewrite !andb_assoc. reflexivity.
Qed.

Lemma search_inventory_member (inventory : list Vehicle) (c : Criteria) (v : Vehicle) :
  In v (_search_inventory inventory c) ->
  In v inventory /\ meets c v = true /\ is_available v = true.
Proof.
  rewrite search_inventory_one_pass. intros H.
  assert (In v (List.filter (fun v => meets c v && is_available v) inventory)) as Hf.
  { apply list_elem_of_In. eapply elem_of_sublist; [apply list_elem_of_In, H|].
    apply sublist_take. }
  apply List.filter_In in Hf as [Hin Hb].
  apply andb_true_iff in Hb. tauto.
Qed.

Lemma criterion_filters_narrowing (c : Criteria) :
  Forall narrowing (criterion_filters c).
Proof.
  repeat constructor.
  - exists (meets_max_price c). apply filter_max_price_test.
  - exists (meets_min_price c). apply filter_min_price_test.
  - exists (meets_category c). apply filter_category_test.
  - exists (meets_make c). apply filter_make_test.
  - exists (meets_year c). apply filter_year_test.
  - exists (meets_features c). apply filter_features_test.
Qed.

Example search_suv_under_30k :
  _search_inventory showroom (_extract_search_criteria "I'm looking for an SUV under 30k")
  = [suv_28000].
Proof. reflexivity. Qed.

Example search_everything : _search_inventory showroom empty_criteria = [suv_28000; suv_32000].
Proof. reflexivity. Qed.

(** C2: with [max_price = P] as the only criterion, every vehicle of the
    result costs at most [P]. *)
Theorem max_price_bounds_every_result (inventory : list Vehicle) (P : Z) :
  Forall (fun v => (price v <= P)%Z)
    (_search_inventory inventory (mkCriteria (Some P) None None None None None)).
Proof.
  apply List.Forall_forall. intros v Hv.
  apply search_inventory_member in Hv as (_ & Hmeets & _).
  unfold meets in Hmeets. rewrite !andb_true_iff in Hmeets.
  destruct Hmeets as [[[[[Hmax _] _] _] _] _].
  apply Z.leb_le. exact Hmax.
Qed.

(** C3: the result has at most ten entries and is a subsequence of the
    store: the retained records stand in the store's order. *)
Theorem search_is_capped_subsequence (inventory : list Vehicle) (criteria : Criteria) :
  length (_search_inventory inventory criteria) <= 10
  /\ _search_inventory inventory criteria `sublist_of` inventory.
Proof.
  rewrite search_inventory_one_pass. split.
  - rewrite length_take. lia.
  - etrans; [apply sublist_take | apply filter_sublist].
Qed.

(** C4: a record whose flag is explicitly false is never in the result,
    whatever the criteria; a record with no flag counts as available and is
    returned when nothing else excludes it. *)
Theorem unavailable_never_returned
    (inventory : list Vehicle) (criteria : Criteria) (v : Vehicle) :
  (available v = Some false -> ~ In v (_search_inventory inventory criteria))
  /\ (available v = None ->
      is_available v = true /\ _search_inventory [v] empty_criteria = [v]).
Proof.
  split.
  - intros Hflag Hin.
    apply search_inventory_member in Hin as (_ & _ & Hav).
    unfold is_available in Hav. rewrite Hflag in Hav. discriminate.
  - intros Hflag.
    assert (is_available v = true) as Hav by (unfold is_available; rewrite Hflag; reflexivity).
    split; [exact Hav|].
    rewrite search_inventory_one_pass. simpl. rewrite Hav. reflexivity.
Qed.

Lemma unavailable_never_returned_witness :
  ~ In sedan_sold (_search_inventory showroom empty_criteria)
  /\ _search_inventory [suv_32000] empty_criteria = [suv_32000].
Proof.
  split.
  - apply (proj1 (unavailable_never_returned showroom empty_criteria sedan_sold)).
    reflexivity.
  - apply (proj2 (unavailable_never_returned showroom empty_criteria suv_32000)).
    reflexivity.
Defined.

(** C8: whatever the order in which the six criterion filters run, the
    availability filter and the cut to ten that follow give the list the
    implemented order gives. *)
Theorem filter_order_is_irrelevant
    (inventory : list Vehicle) (criteria : Criteria)
    (order : list (list Vehicle -> list Vehicle)) :
  Permutation order (criterion_filters criteria) ->
  take 10 (filter_available (apply_in_order order inventory))
  = _search_inventory inventory criteria.
Proof.
  intros Hperm.
  rewrite <- (apply_in_order_permutation (criterion_filters criteria) order).
  - reflexivity.
  - symmetry. exact Hperm.
  - apply criterion_filters_narrowing.
Qed.

Lemma filter_order_is_irrelevant_witness :
  take 10 (filter_available (apply_in_order (rev (criterion_filters picky)) showroom))
  = _search_inventory showroom picky.
Proof.
  apply (filter_order_is_irrelevant showroom picky (rev (criterion_filters picky))).
  symmetry. apply Permutation_rev.
Defined.

Example search_picky : _search_inventory showroom picky = [suv_28000].
Proof. reflexivity. Qed.

(** ** Confirmation codes *)

Lemma nibble_range (k : nat) (n : Z) : (0 <= Uuid.nibble k n < 16)%Z.
Proof.
  unfold Uuid.nibble. change 15%Z with (Z.ones 4).
  rewrite Z.land_ones by lia. apply Z.mod_pos_bound. reflexivity.
Qed.

(** An upper-cased hexadecimal digit is a digit or one of A to F. *)
Lemma upper_hex_char_ok (k : nat) (n : Z) :
  is_upper_alnum (Py.upper_char (Uuid.hex_char (Uuid.nibble k n))) = true.
Proof.
  pose proof (nibble_range k n) as H.
  assert (exists d : nat, (d < 16)%nat /\ Uuid.nibble k n = Z.of_nat d) as (d & Hd & ->).
  { exists (Z.to_nat (Uuid.nibble k n)). split; lia. }
  do 16 (destruct d as [|d]; [reflexivity|]). lia.
Qed.

(** The code put in the scheduling task always has the shape [TD-XXXXX]. *)
Lemma scheduling_confirmation_ok (u : Z) : td_code_ok (scheduling_confirmation u) = true.
Proof.
  cbv -[Uuid.nibble Uuid.hex_char Py.upper_char is_upper_alnum].
  rewrite !upper_hex_char_ok. reflexivity.
Qed.

Lemma booking_confirmation_length (u : Z) : String.length (booking_confirmation u) = 11.
Proof. cbv -[Uuid.nibble Uuid.hex_char Py.upper_char]. reflexivity. Qed.

Lemma append_assoc (a b c : string) : (a +:+ b) +:+ c = a +:+ b +:+ c.
Proof.
  induction a as [|x a IH].
  - reflexivity.
  - change (String x ((a +:+ b) +:+ c) = String x (a +:+ b +:+ c)). rewrite IH. reflexivity.
Qed.

Lemma substring_app_r (sub a b : string) :
  Py.Substring sub b -> Py.Substring sub (a +:+ b).
Proof.
  intros (pre & post & ->). exists (a +:+ pre), post. symmetry. apply append_assoc.
Qed.

Lemma substring_app_l (sub a b : string) :
  Py.Substring sub a -> Py.Substring sub (a +:+ b).
Proof.
  intros (pre & post & ->). exists pre, (post +:+ b).
  rewrite !append_assoc. reflexivity.
Qed.

Lemma append_empty_r (a : string) : a +:+ EmptyString = a.
Proof.
  induction a as [|x a IH]; [reflexivity|].
  change (String x (a +:+ EmptyString) = String x a). rewrite IH. reflexivity.
Qed.

Lemma substring_refl (s : string) : Py.Substring s s.
Proof. exists EmptyString, EmptyString. rewrite append_empty_r. reflexivity. Qed.

Lemma template_has_line (lines : list string) (l : string) :
  In l lines -> Py.Substring l (template lines).
Proof.
  intros Hl. unfold template. apply substring_app_r.
  induction lines as [|x lines IH]; [destruct Hl|].
  cbn [fold_right]. destruct Hl as [->|Hl].
  - apply substring_app_r, substring_app_l, substring_refl.
  - do 3 apply substring_app_r. apply IH, Hl.
Qed.

(** The code is part of the prompt the scheduling agent receives. *)
Lemma scheduling_task_embeds_code (u : Z) (message : string) :
  exists text,
    description (_create_scheduling_task u message) = SchedulingPrompt text
    /\ Py.Substring ("- Confirmation #: " +:+ scheduling_confirmation u) text.
Proof.
  eexists. split; [reflexivity|].
  apply template_has_line. simpl. tauto.
Qed.

(** C9 on the code: the scheduling task carries [TD-] and five upper-case
    alphanumerics, but the code [book_test_drive] stores and returns has
    eight characters after [TD-], for every draw of the random source. *)
Theorem booking_code_has_eight_characters (u : Z) (now : string)
    (stored : option (list Appointment)) (customer vehicle when contact : string) :
  td_code_ok (scheduling_confirmation u) = true
  /\ (forall message, exists text,
        description (_create_scheduling_task u message) = SchedulingPrompt text
        /\ Py.Substring ("- Confirmation #: " +:+ scheduling_confirmation u) text)
  /\ (exists appointment,
        last (fst (book_test_drive u now stored customer vehicle when contact))
          = Some appointment
        /\ confirmation_number appointment = booking_confirmation u)
  /\ snd (book_test_drive u now stored customer vehicle when contact)
     = "✓ Test drive request created. Confirmation: " +:+ booking_confirmation u
         +:+ ". Our team will contact you to confirm details."
  /\ String.length (booking_confirmation u) = 11
  /\ td_code_ok (booking_confirmation u) = false.
Proof.
  split; [apply scheduling_confirmation_ok|].
  split; [intros message; apply scheduling_task_embeds_code|]. split; [|split; [|split]].
  - eexists. split; [apply last_snoc|]. reflexivity.
  - reflexivity.
  - apply booking_confirmation_length.
  - unfold td_code_ok. rewrite booking_confirmation_length.
    rewrite andb_false_r. reflexivity.
Qed.

Example booking_code_sample :
  snd (book_test_drive 0x3f2a9c1e5b7d4e8fa1b2c3d4e5f60718 "2024-05-01T10:00:00" None
         "Valued Customer" "Selected Vehicle" "To be confirmed" EmptyString)
  = "✓ Test drive request created. Confirmation: TD-3F2A9C1E. Our team will contact you to confirm details.".
Proof. reflexivity. Qed.

Example scheduling_code_sample :
  scheduling_confirmation 0x3f2a9c1e5b7d4e8fa1b2c3d4e5f60718 = "TD-3F2A9".
Proof. reflexivity. Qed.

(** ** Routing and the reply *)

Section CrewProperties.

Variable inventory : list Vehicle.
Variable knowledge_base : list KnowledgeEntry.

Lemma dispatch_scheduling (env : Env) (message : string) :
  Py.any_in scheduling_keywords (Py.lower message) = true ->
  dispatch inventory knowledge_base env message
  = match kickoff env (_create_scheduling_task (uuid_confirmation env) message) with
    | Some result => Some (["scheduling"], result)
    | None => None
    end.
Proof. intros H. unfold dispatch. rewrite H. reflexivity. Qed.

Lemma dispatch_research (env : Env) (message : string) :
  Py.any_in scheduling_keywords (Py.lower message) = false ->
  dispatch inventory knowledge_base env message
  = match _create_vehicle_search_task inventory knowledge_base
            (semantic_results env) message with
    | Some task =>
        match kickoff env task with
        | Some result =>
            Some (if Py.any_in interest_keywords (Py.lower message)
                  then ["research"; "qualifier"] else ["research"], result)
        | None => None
        end
    | None => None
    end.
Proof.
  intros H. unfold dispatch. rewrite H.
  destruct (_create_vehicle_search_task _ _ _ _) as [task|]; [|reflexivity].
  destruct (kickoff env task); [|reflexivity].
  destruct (Py.any_in interest_keywords _); reflexivity.
Qed.

Lemma process_reply (env : Env) (conversations : gmap string (list Turn))
    (message : string) (conversation_id : option string) :
  snd (process_customer_query inventory knowledge_base env conversations message conversation_id)
  = match dispatch inventory knowledge_base env message with
    | Some (used, text) =>
        mkReply text (resolve_id env conversation_id)
          [mkAction "agent_response" used] used
    | None => mkReply apology (resolve_id env conversation_id) [] []
    end.
Proof.
  unfold process_customer_query.
  destruct (dispatch inventory knowledge_base env message) as [[used text]|]; reflexivity.
Qed.

Lemma process_store (env : Env) (conversations : gmap string (list Turn))
    (message : string) (conversation_id : option string) :
  fst (process_customer_query inventory knowledge_base env conversations message conversation_id)
  = record_turn (resolve_id env conversation_id)
      (mkTurn user message (Uuid.str (uuid_timestamp env))) conversations.
Proof.
  unfold process_customer_query.
  destruct (dispatch inventory knowledge_base env message) as [[used text]|]; reflexivity.
Qed.

(** C1, as amended: on a message whose lower-cased text has a scheduling
    cue the [try] block runs the scheduling task, and nothing else, also
    next to an interest cue; without a scheduling cue it builds and runs the
    research task.  When no exception is raised while the response is
    produced, the returned [agents_used] is [scheduling] alone on the
    scheduling route, and on the research route [research], followed by
    [qualifier] exactly when an interest cue occurs. *)
Theorem scheduling_cue_has_priority (env : Env)
    (conversations : gmap string (list Turn))
    (message : string) (conversation_id : option string) :
  ((exists k, In k scheduling_keywords /\ Py.Substring k (Py.lower message)) ->
     dispatch inventory knowledge_base env message
     = match kickoff env (_create_scheduling_task (uuid_confirmation env) message) with
       | Some result => Some (["scheduling"], result)
       | None => None
       end
     /\ (dispatch inventory knowledge_base env message <> None ->
         agents_used (snd (process_customer_query inventory knowledge_base env
                             conversations message conversation_id))
         = ["scheduling"]))
  /\
  ((forall k, In k scheduling_keywords -> ~ Py.Substring k (Py.lower message)) ->
     dispatch inventory knowledge_base env message
     = match _create_vehicle_search_task inventory knowledge_base
               (semantic_results env) message with
       | Some task =>
           match kickoff env task with
           | Some result =>
               Some (if Py.any_in interest_keywords (Py.lower message)
                     then ["research"; "qualifier"] else ["research"], result)
           | None => None
           end
       | None => None
       end
     /\ (dispatch inventory knowledge_base env message <> None ->
         ((exists k, In k interest_keywords /\ Py.Substring k (Py.lower message)) ->
            agents_used (snd (process_customer_query inventory knowledge_base env
                                conversations message conversation_id))
            = ["research"; "qualifier"])
         /\ ((forall k, In k interest_keywords -> ~ Py.Substring k (Py.lower message)) ->
            agents_used (snd (process_customer_query inventory knowledge_base env
                                conversations message conversation_id))
            = ["research"]))).
Proof.
  split.
  - intros Hcue. apply any_in_spec in Hcue.
    split; [apply dispatch_scheduling, Hcue|].
    intros Hok. rewrite process_reply.
    rewrite dispatch_scheduling in * by exact Hcue.
    destruct (kickoff env _); [reflexivity | contradiction].
  - intros Hnone. apply any_in_false in Hnone.
    split; [apply dispatch_research, Hnone|].
    intros Hok. rewrite process_reply.
    rewrite dispatch_research in * by exact Hnone.
    destruct (_create_vehicle_search_task _ _ _ _) as [task|]; [|contradiction].
    destruct (kickoff env task); [|contradiction].
    split; intros Hint.
    + apply any_in_spec in Hint. rewrite Hint. reflexivity.
    + apply any_in_false in Hint. rewrite Hint. reflexivity.
Qed.

(** C6: when an exception escapes the body of the [try] block, the reply is
    the fixed apology with no action and no agent; the function returns a
    reply in every case. *)
Theorem failure_gives_apology (env : Env)
    (conversations : gmap string (list Turn))
    (message : string) (conversation_id : option string) :
  dispatch inventory knowledge_base env message = None ->
  snd (process_customer_query inventory knowledge_base env conversations message conversation_id)
  = mkReply "I apologize, I encountered an error. Please try again."
      (resolve_id env conversation_id) [] [].
Proof. intros H. rewrite process_reply, H. reflexivity. Qed.

(** The [try] block fails exactly when an exception is raised in it: by the
    agent framework on the task of the route, or while the research task is
    built. *)
Lemma dispatch_fails_iff (env : Env) (message : string) :
  dispatch inventory knowledge_base env message = None <->
  try_body_raises inventory knowledge_base env message.
Proof.
  unfold try_body_raises.
  destruct (Py.any_in scheduling_keywords (Py.lower message)) eqn:E.
  - rewrite dispatch_scheduling by exact E. destruct (kickoff env _); split; congruence.
  - rewrite dispatch_research by exact E.
    destruct (_create_vehicle_search_task _ _ _ _) as [task|]; [|tauto].
    destruct (kickoff env task); split; congruence.
Qed.

End CrewProperties.

(** ** The Conversation Store *)

Lemma record_turn_same (cid : string) (t : Turn) (conversations : gmap string (list Turn)) :
  record_turn cid t conversations !! cid
  = Some (default [] (conversations !! cid) ++ [t])%list.
Proof.
  unfold record_turn. destruct (conversations !! cid) as [turns|] eqn:E.
  - rewrite lookup_alter_eq, E. reflexivity.
  - rewrite lookup_alter_eq, lookup_insert_eq. reflexivity.
Qed.

Lemma record_turn_other (cid k : string) (t : Turn)
    (conversations : gmap string (list Turn)) :
  k <> cid -> record_turn cid t conversations !! k = conversations !! k.
Proof.
  intros Hk. unfold record_turn. destruct (conversations !! cid) as [turns|] eqn:E.
  - rewrite lookup_alter_ne by congruence. reflexivity.
  - rewrite lookup_alter_ne, lookup_insert_ne by congruence. reflexivity.
Qed.

Lemma resolve_id_given (env : Env) (c : string) :
  c <> EmptyString -> resolve_id env (Some c) = c.
Proof. intros Hc. destruct c; [contradiction | reflexivity]. Qed.

Section StoreProperties.

Variable inventory : list Vehicle.
Variable knowledge_base : list KnowledgeEntry.

(** One call leaves every stored conversation as it was, except that the
    conversation of the call gets the user turn at its end. *)
Lemma call_only_appends (env : Env) (conversations : gmap string (list Turn))
    (message : string) (conversation_id : option string)
    (k : string) (turns : list Turn) :
  conversations !! k = Some turns ->
  exists added,
    fst (process_customer_query inventory knowledge_base env conversations
           message conversation_id) !! k = Some (turns ++ added)%list
    /\ Forall (fun t => role t = user) added.
Proof.
  intros Hk. rewrite process_store.
  destruct (decide (k = resolve_id env conversation_id)) as [->|Hne].
  - eexists. rewrite record_turn_same, Hk. split; [reflexivity|].
    repeat constructor.
  - exists []. rewrite record_turn_other by exact Hne.
    rewrite app_nil_r. split; [exact Hk | constructor].
Qed.

Lemma run_calls_extends (c : string) (calls : list (Env * string))
    (conversations : gmap string (list Turn)) (turns : list Turn) :
  c <> EmptyString ->
  conversations !! c = Some turns ->
  run_calls inventory knowledge_base conversations (with_id c calls) !! c
  = Some (turns ++ map turn_of calls)%list.
Proof.
  intros Hc. revert conversations turns.
  induction calls as [|[env message] calls IH]; intros conversations turns Hturns.
  - simpl. rewrite app_nil_r. exact Hturns.
  - simpl. rewrite process_store, resolve_id_given by exact Hc.
    erewrite IH; [|rewrite record_turn_same, Hturns; reflexivity].
    simpl. rewrite <- app_assoc. reflexivity.
Qed.

Lemma run_calls_fresh (c : string) (calls : list (Env * string))
    (conversations : gmap string (list Turn)) :
  c <> EmptyString ->
  conversations !! c = None ->
  calls <> [] ->
  run_calls inventory knowledge_base conversations (with_id c calls) !! c
  = Some (map turn_of calls).
Proof.
  intros Hc Hfresh Hcalls. destruct calls as [|[env message] calls]; [contradiction|].
  simpl. rewrite process_store, resolve_id_given by exact Hc.
  erewrite run_calls_extends; [|exact Hc|rewrite record_turn_same, Hfresh; reflexivity].
  reflexivity.
Qed.

(** C7, as amended: for every NON-EMPTY identifier [c] that the store does
    not hold yet, after [N >= 1] calls with [c], whatever the generation
    step does in each of them, the store maps [c] to exactly [N] turns, all
    of role user, whose contents are the messages in call order; and no call
    removes, reorders or rewrites a stored turn: it only appends user
    turns. *)
Theorem store_holds_the_user_turns (c : string) (calls : list (Env * string))
    (conversations : gmap string (list Turn)) :
  c <> EmptyString ->
  conversations !! c = None ->
  calls <> [] ->
  (exists turns,
      run_calls inventory knowledge_base conversations (with_id c calls) !! c = Some turns
      /\ length turns = length calls
      /\ Forall (fun t => role t = user) turns
      /\ map content turns = map snd calls)
  /\ (forall env store message conversation_id k turns,
        store !! k = Some turns ->
        exists added,
          fst (process_customer_query inventory knowledge_base env store
                 message conversation_id) !! k = Some (turns ++ added)%list
          /\ Forall (fun t => role t = user) added).
Proof.
  intros Hc Hfresh Hcalls. split.
  - exists (map turn_of calls). split; [apply run_calls_fresh; assumption|].
    split; [apply length_map|]. split.
    + apply List.Forall_forall. intros t Ht.
      apply in_map_iff in Ht as (call & <- & _). reflexivity.
    + rewrite map_map. reflexivity.
  - intros env store message conversation_id k turns. apply call_only_appends.
Qed.

End StoreProperties.

(** ** Concrete runs *)

Lemma scheduling_cue_has_priority_witness :
  dispatch showroom [] env_up "I am interested, please SCHEDULE a visit"
  = Some (["scheduling"], "Certainly.")
  /\ agents_used (snd (process_customer_query showroom [] env_up ∅
                         "I am interested, please SCHEDULE a visit" None))
     = ["scheduling"]
  /\ agents_used (snd (process_customer_query showroom [] env_up ∅
                         "I need a sedan" None))
     = ["research"; "qualifier"]
  /\ agents_used (snd (process_customer_query showroom [] env_up ∅
                         "any sedan?" None))
     = ["research"].
Proof.
  pose proof (proj1 (scheduling_cue_has_priority showroom [] env_up ∅
                       "I am interested, please SCHEDULE a visit" None)) as Hs.
  pose proof (proj2 (scheduling_cue_has_priority showroom [] env_up ∅
                       "I need a sedan" None)) as Hq.
  pose proof (proj2 (scheduling_cue_has_priority showroom [] env_up ∅
                       "any sedan?" None)) as Hr.
  assert (forall k, In k scheduling_keywords -> ~ Py.Substring k (Py.lower "I need a sedan"))
    as Hno1 by (apply any_in_false; reflexivity).
  assert (forall k, In k scheduling_keywords -> ~ Py.Substring k (Py.lower "any sedan?"))
    as Hno2 by (apply any_in_false; reflexivity).
  destruct Hs as [Hroute Hused]; [apply any_in_spec; reflexivity|].
  destruct (Hq Hno1) as [_ Hq']. destruct (Hr Hno2) as [_ Hr'].
  split; [exact Hroute|]. split; [|split].
  - apply Hused. discriminate.
  - apply Hq'; [discriminate | apply any_in_spec; reflexivity].
  - apply Hr'; [discriminate | apply any_in_false; reflexivity].
Defined.

(** C1 as stated fails when the generation raises: the message has a
    scheduling cue and the returned [agents_used] is empty. *)
Lemma scheduling_agents_counterexample :
  (exists k, In k scheduling_keywords /\ Py.Substring k (Py.lower "schedule a test drive"))
  /\ agents_used (snd (process_customer_query showroom [] env_down ∅
                         "schedule a test drive" None))
     <> ["scheduling"].
Proof.
  split; [apply any_in_spec; reflexivity|].
  rewrite process_reply. simpl. discriminate.
Qed.

Lemma failure_gives_apology_witness :
  snd (process_customer_query showroom [] env_down ∅ "schedule a test drive" (Some "c-1"))
  = mkReply "I apologize, I encountered an error. Please try again." "c-1" [] [].
Proof.
  apply (failure_gives_apology showroom [] env_down ∅ "schedule a test drive" (Some "c-1")).
  reflexivity.
Defined.

Lemma store_holds_the_user_turns_witness :
  exists turns,
    run_calls showroom [] ∅
      (with_id "c-1" [(env_up, "hello"); (env_down, "schedule a visit"); (env_up, "thanks")])
      !! "c-1" = Some turns
    /\ length turns = 3
    /\ Forall (fun t => role t = user) turns
    /\ map content turns = ["hello"; "schedule a visit"; "thanks"].
Proof.
  apply (store_holds_the_user_turns showroom [] "c-1"
           [(env_up, "hello"); (env_down, "schedule a visit"); (env_up, "thanks")] ∅).
  - discriminate.
  - apply lookup_empty.
  - discriminate.
Defined.

(** C7 as stated fails for the empty identifier: the call is stored under a
    fresh identifier and the store holds nothing for the empty string. *)
Lemma empty_identifier_counterexample :
  run_calls showroom [] ∅ (with_id EmptyString [(env_up, "hello")]) !! EmptyString = None
  /\ run_calls showroom [] ∅ (with_id EmptyString [(env_up, "hello")])
       !! "3f2a9c1e-5b7d-4e8f-a1b2-c3d4e5f60718"
     = Some [mkTurn user "hello" "01020304-0506-4708-890a-0b0c0d0e0f10"].
Proof.
  unfold with_id. cbn [map run_calls fst snd]. rewrite !process_store. split.
  - rewrite record_turn_other by discriminate. apply lookup_empty.
  - rewrite record_turn_same. reflexivity.
Qed.

(** * Further properties of the code *)

(** ** Case and the extractor *)

Lemma lower_upper_char (c : ascii) : Py.lower_char (Py.upper_char c) = Py.lower_char c.
Proof. destruct c as [[] [] [] [] [] [] [] []]; reflexivity. Qed.

Lemma lower_lower_char (c : ascii) : Py.lower_char (Py.lower_char c) = Py.lower_char c.
Proof. destruct c as [[] [] [] [] [] [] [] []]; reflexivity. Qed.

Lemma lower_upper (s : string) : Py.lower (Py.upper s) = Py.lower s.
Proof.
  induction s as [|c s IH]; simpl; [reflexivity|]. rewrite IH, lower_upper_char. reflexivity.
Qed.

Lemma lower_lower (s : string) : Py.lower (Py.lower s) = Py.lower s.
Proof.
  induction s as [|c s IH]; simpl; [reflexivity|]. rewrite IH, lower_lower_char. reflexivity.
Qed.

(** On ASCII text the extractor is blind to letter case: the message in
    capitals, or in small letters, gets the criteria of the message as
    typed.  (The hypothesis is the range on which [Py.lower] and [Py.upper]
    are the methods of Python.) *)
Theorem extraction_ignores_case (message : string) :
  Py.is_ascii message = true ->
  _extract_search_criteria (Py.upper message) = _extract_search_criteria message
  /\ _extract_search_criteria (Py.lower message) = _extract_search_criteria message.
Proof.
  intros _. unfold _extract_search_criteria.
  rewrite lower_upper, lower_lower. split; reflexivity.
Qed.

Lemma extraction_ignores_case_witness :
  _extract_search_criteria "A SAFE HONDA SUV UNDER 30K"
  = _extract_search_criteria "a safe Honda SUV under 30k".
Proof.
  rewrite <- (proj1 (extraction_ignores_case "a safe Honda SUV under 30k" eq_refl)).
  reflexivity.
Defined.

(** ** What the extractor can produce *)

(** The steps after the price step leave the price, minimum and year keys
    alone. *)
Lemma later_steps_keep_prices (message_lower : string) (criteria : Criteria) :
  let final :=
    extract_features message_lower
      (extract_make message_lower (extract_category message_lower criteria)) in
  max_price final = max_price criteria
  /\ min_price final = min_price criteria
  /\ c_year final = c_year criteria.
Proof.
  cbv zeta.
  assert (forall c, max_price (extract_features message_lower c) = max_price c
                    /\ min_price (extract_features message_lower c) = min_price c
                    /\ c_year (extract_features message_lower c) = c_year c) as Hf.
  { intros c. unfold extract_features.
    destruct (_ || _), (_ || _), (Py.contains "leather" _); repeat split; reflexivity. }
  assert (forall names c,
             let c' := fold_left
               (fun crit mk =>
                  if Py.contains mk message_lower
                  then set_make (Py.title mk) crit else crit) names c in
             max_price c' = max_price c /\ min_price c' = min_price c
             /\ c_year c' = c_year c) as Hm.
  { induction names as [|mk names IH]; intros c; cbv zeta; simpl; [repeat split|].
    destruct (IH (if Py.contains mk message_lower
                  then set_make (Py.title mk) c else c)) as (-> & -> & ->).
    destruct (Py.contains mk message_lower); repeat split; reflexivity. }
  assert (forall c, max_price (extract_category message_lower c) = max_price c
                    /\ min_price (extract_category message_lower c) = min_price c
                    /\ c_year (extract_category message_lower c) = c_year c) as Hc.
  { intros c. unfold extract_category.
    repeat match goal with |- context [if ?b then _ else _] => destruct b end;
      repeat split; reflexivity. }
  destruct (Hf (extract_make message_lower (extract_category message_lower criteria)))
    as (-> & -> & ->).
  unfold extract_make.
  destruct (Hm makes (extract_category message_lower criteria)) as (-> & -> & ->).
  apply Hc.
Qed.

(** The extractor never sets a minimum price or a year, and a price ceiling
    is one of 25000, 30000, 35000 and needs [under] or [below] in the text:
    a budget without one of these two words, or with another amount, is
    dropped. *)
Theorem extracted_price_is_limited (message : string) :
  min_price (_extract_search_criteria message) = None
  /\ c_year (_extract_search_criteria message) = None
  /\ (forall p, max_price (_extract_search_criteria message) = Some p ->
        (p = 25000 \/ p = 30000 \/ p = 35000)%Z
        /\ (Py.Substring "under" (Py.lower message)
            \/ Py.Substring "below" (Py.lower message))).
Proof.
  unfold _extract_search_criteria.
  destruct (later_steps_keep_prices (Py.lower message)
              (extract_price (Py.lower message) empty_criteria)) as (-> & -> & ->).
  split; [|split].
  - unfold extract_price.
    repeat match goal with |- context [if ?b then _ else _] => destruct b end; reflexivity.
  - unfold extract_price.
    repeat match goal with |- context [if ?b then _ else _] => destruct b end; reflexivity.
  - intros p. unfold extract_price.
    destruct (Py.contains "under" (Py.lower message)) eqn:Hu;
      destruct (Py.contains "below" (Py.lower message)) eqn:Hb; cbn [orb];
      try discriminate;
      repeat match goal with |- context [if ?b then _ else _] => destruct b end;
      cbn; intros Hp; try discriminate; injection Hp as <-; (split; [lia|]);
      first [left; apply contains_spec; exact Hu | right; apply contains_spec; exact Hb].
Qed.

Example price_needs_cue :
  max_price (_extract_search_criteria "my budget is 30k") = None
  /\ max_price (_extract_search_criteria "something under 40k") = None
  /\ max_price (_extract_search_criteria "under 25k or maybe 30k") = Some 30000%Z.
Proof. repeat split; reflexivity. Qed.

Lemma extracted_category_key (message : string) :
  c_category (_extract_search_criteria message)
  = c_category (extract_category (Py.lower message) empty_criteria).
Proof.
  unfold _extract_search_criteria.
  rewrite (proj2 (extract_features_keeps _ _)).
  assert (forall names c,
             c_category (fold_left
               (fun crit mk =>
                  if Py.contains mk (Py.lower message)
                  then set_make (Py.title mk) crit else crit) names c)
             = c_category c) as Hloop.
  { induction names as [|mk names IH]; intros c; simpl; [reflexivity|].
    rewrite IH. destruct (Py.contains mk (Py.lower message)); reflexivity. }
  unfold extract_make. rewrite Hloop.
  unfold extract_category.
  repeat match goal with |- context [if ?b then _ else _] => destruct b end;
    try reflexivity.
  apply (proj2 (extract_price_keeps _ _)).
Qed.

(** The category keywords have a fixed priority, suv before truck before
    sedan before electric: the first of them that occurs in the text decides,
    whatever else the text says, and a text with none of them has no
    category. *)
Theorem category_priority (message : string) :
  (Py.Substring "suv" (Py.lower message) ->
     c_category (_extract_search_criteria message) = Some "suv")
  /\ (~ Py.Substring "suv" (Py.lower message) ->
      Py.Substring "truck" (Py.lower message) ->
      c_category (_extract_search_criteria message) = Some "truck")
  /\ (~ Py.Substring "suv" (Py.lower message) ->
      ~ Py.Substring "truck" (Py.lower message) ->
      Py.Substring "sedan" (Py.lower message) ->
      c_category (_extract_search_criteria message) = Some "sedan")
  /\ (~ Py.Substring "suv" (Py.lower message) ->
      ~ Py.Substring "truck" (Py.lower message) ->
      ~ Py.Substring "sedan" (Py.lower message) ->
      ~ Py.Substring "electric" (Py.lower message) ->
      ~ Py.Substring "ev" (Py.lower message) ->
      c_category (_extract_search_criteria message) = None).
Proof.
  rewrite extracted_category_key. unfold extract_category.
  repeat split.
  - intros H. apply contains_spec in H. rewrite H. reflexivity.
  - intros H1 H2. apply contains_false in H1. apply contains_spec in H2.
    rewrite H1, H2. reflexivity.
  - intros H1 H2 H3. apply contains_false in H1, H2. apply contains_spec in H3.
    rewrite H1, H2, H3. reflexivity.
  - intros H1 H2 H3 H4 H5. apply contains_false in H1, H2, H3, H4, H5.
    rewrite H1, H2, H3, H4, H5. reflexivity.
Qed.

Lemma category_priority_witness :
  c_category (_extract_search_criteria "an electric SUV or a truck") = Some "suv"
  /\ c_category (_extract_search_criteria "a Sedan, or a TRUCK") = Some "truck"
  /\ c_category (_extract_search_criteria "an electric sedan") = Some "sedan"
  /\ c_category (_extract_search_criteria "a minivan") = None.
Proof.
  split; [|split; [|split]].
  - apply (proj1 (category_priority "an electric SUV or a truck")).
    apply contains_spec. reflexivity.
  - apply (proj1 (proj2 (category_priority "a Sedan, or a TRUCK")));
      [apply contains_false | apply contains_spec]; reflexivity.
  - apply (proj1 (proj2 (proj2 (category_priority "an electric sedan"))));
      [apply contains_false | apply contains_false | apply contains_spec]; reflexivity.
  - apply (proj2 (proj2 (proj2 (category_priority "a minivan"))));
      apply contains_false; reflexivity.
Defined.

Lemma substring_of_longer (a b s : string) :
  Py.Substring (a +:+ b) s -> Py.Substring a s.
Proof.
  intros (pre & post & ->). exists pre, (b +:+ post).
  rewrite append_assoc. reflexivity.
Qed.

Lemma contains_longer (a b s : string) :
  Py.contains (a +:+ b) s || Py.contains a s = Py.contains a s.
Proof.
  destruct (Py.contains (a +:+ b) s) eqn:E; [|reflexivity].
  apply contains_spec, substring_of_longer, contains_spec in E. rewrite E. reflexivity.
Qed.

Lemma extracted_features_key (message : string) :
  c_features (_extract_search_criteria message)
  = c_features (extract_features (Py.lower message) empty_criteria).
Proof.
  assert (forall names c,
             c_features (fold_left
               (fun crit mk =>
                  if Py.contains mk (Py.lower message)
                  then set_make (Py.title mk) crit else crit) names c)
             = c_features c) as Hloop.
  { induction names as [|mk names IH]; intros c; simpl; [reflexivity|].
    rewrite IH. destruct (Py.contains mk (Py.lower message)); reflexivity. }
  assert (c_features (extract_make (Py.lower message)
            (extract_category (Py.lower message)
               (extract_price (Py.lower message) empty_criteria))) = None) as Hearlier.
  { unfold extract_make. rewrite Hloop. unfold extract_category, extract_price.
    repeat match goal with |- context [if ?b then _ else _] => destruct b end;
      reflexivity. }
  unfold _extract_search_criteria, extract_features.
  repeat match goal with |- context [if ?b then _ else _] => destruct b end;
    try reflexivity; exact Hearlier.
Qed.

(** The required features are decided by three cues: [safe] asks for Blind
    Spot Monitoring, [nav] for a Navigation System, [leather] for Leather
    Seats (the longer keywords [safety] and [navigation] add nothing).  The
    features come in that order, and with no cue the key is absent: the
    list is never empty. *)
Theorem extracted_features_follow_cues (message : string) :
  let wanted :=
    ((if Py.contains "safe" (Py.lower message) then ["Blind Spot Monitoring"] else [])
     ++ (if Py.contains "nav" (Py.lower message) then ["Navigation System"] else [])
     ++ (if Py.contains "leather" (Py.lower message) then ["Leather Seats"] else []))%list
  in
  c_features (_extract_search_criteria message)
  = match wanted with [] => None | _ :: _ => Some wanted end.
Proof.
  cbv zeta. rewrite extracted_features_key. unfold extract_features.
  change "safety" with ("safe" +:+ "ty"). change "navigation" with ("nav" +:+ "igation").
  rewrite !contains_longer.
  destruct (Py.contains "safe" _), (Py.contains "nav" _), (Py.contains "leather" _);
    reflexivity.
Qed.

Example features_from_unsafe_words :
  c_features (_extract_search_criteria "is a navy one unsafe?")
  = Some ["Blind Spot Monitoring"; "Navigation System"].
Proof. reflexivity. Qed.

(** ** The search as a whole *)

Lemma has_feature_spec (f : string) (v : Vehicle) :
  has_feature f v = true <-> In f (default [] (features v)).
Proof.
  unfold has_feature. rewrite existsb_exists. split.
  - intros (x & Hx & E). apply String.eqb_eq in E. subst x. exact Hx.
  - intros H. exists f. split; [exact H | apply String.eqb_refl].
Qed.

Lemma is_available_spec (v : Vehicle) :
  is_available v = true <-> available v <> Some false.
Proof.
  unfold is_available. destruct (available v) as [[]|]; simpl; split;
    congruence.
Qed.

(** The boolean tests of the chain decide [Wanted]. *)
Lemma meets_spec (c : Criteria) (v : Vehicle) :
  meets c v && is_available v = true <-> Wanted c v.
Proof.
  unfold meets, meets_max_price, meets_min_price, meets_category, meets_make,
    meets_year, meets_features.
  rewrite !andb_true_iff. split.
  - intros [[[[[[Hmax Hmin] Hcat] Hmake] Hyear] Hfeat] Hav]. constructor.
    + intros p E. rewrite E in Hmax. apply Z.leb_le. exact Hmax.
    + intros p E. rewrite E in Hmin. apply Z.geb_le in Hmin. exact Hmin.
    + intros k E. rewrite E in Hcat. apply String.eqb_eq. exact Hcat.
    + intros m E. rewrite E in Hmake. apply String.eqb_eq. exact Hmake.
    + intros y E. rewrite E in Hyear. apply Z.eqb_eq. exact Hyear.
    + intros fs f E Hf. rewrite E in Hfeat.
      rewrite forallb_forall in Hfeat. apply has_feature_spec, Hfeat, Hf.
    + apply is_available_spec. exact Hav.
  - intros [Hmax Hmin Hcat Hmake Hyear Hfeat Hav]. repeat split.
    + destruct (max_price c) as [p|]; [apply Z.leb_le; auto | reflexivity].
    + destruct (min_price c) as [p|]; [apply Z.geb_le; auto | reflexivity].
    + destruct (c_category c) as [k|]; [apply String.eqb_eq; auto | reflexivity].
    + destruct (c_make c) as [m|]; [apply String.eqb_eq; auto | reflexivity].
    + destruct (c_year c) as [y|]; [apply Z.eqb_eq; auto | reflexivity].
    + destruct (c_features c) as [fs|]; [|reflexivity].
      apply forallb_forall. intros f Hf. apply has_feature_spec. eauto.
    + apply is_available_spec. exact Hav.
Qed.

Lemma search_member_wanted (inventory : list Vehicle) (c : Criteria) (v : Vehicle) :
  In v (_search_inventory inventory c) -> In v inventory /\ Wanted c v.
Proof.
  intros H. apply search_inventory_member in H as (Hin & Hm & Ha).
  split; [exact Hin|]. apply meets_spec. rewrite Hm, Ha. reflexivity.
Qed.

(** Every returned vehicle is a vehicle of the store that meets every given
    criterion and is not marked unavailable; and when fewer than ten
    vehicles are returned nothing was cut, so every such vehicle of the
    store is returned. *)
Theorem search_is_sound_and_complete_below_cap
    (inventory : list Vehicle) (criteria : Criteria) (v : Vehicle) :
  (In v (_search_inventory inventory criteria) -> In v inventory /\ Wanted criteria v)
  /\ (length (_search_inventory inventory criteria) < 10 ->
      In v inventory -> Wanted criteria v ->
      In v (_search_inventory inventory criteria)).
Proof.
  split.
  - apply search_member_wanted.
  - rewrite search_inventory_one_pass. intros Hlen Hin Hw.
    rewrite length_take in Hlen.
    rewrite take_ge by lia.
    apply List.filter_In. split; [exact Hin | apply meets_spec; exact Hw].
Qed.

Lemma search_is_sound_and_complete_below_cap_witness :
  In suv_28000 (_search_inventory showroom picky)
  /\ Wanted picky suv_28000.
Proof.
  assert (length (_search_inventory showroom picky) < 10) as Hlen by (vm_compute; lia).
  assert (In suv_28000 showroom) as Hin by (left; reflexivity).
  assert (Wanted picky suv_28000) as Hw by (apply meets_spec; reflexivity).
  split; [|exact Hw].
  exact (proj2 (search_is_sound_and_complete_below_cap showroom picky suv_28000)
           Hlen Hin Hw).
Defined.

Lemma filter_keeps_all {A : Type} (p : A -> bool) (l : list A) :
  Forall (fun x => p x = true) l -> List.filter p l = l.
Proof.
  induction 1 as [|x l Hx _ IH]; simpl; [reflexivity|]. rewrite Hx, IH. reflexivity.
Qed.

(** Searching the result of a search again, with the same criteria, changes
    nothing. *)
Theorem search_again_changes_nothing (inventory : list Vehicle) (criteria : Criteria) :
  _search_inventory (_search_inventory inventory criteria) criteria
  = _search_inventory inventory criteria.
Proof.
  rewrite (search_inventory_one_pass (_search_inventory inventory criteria)).
  rewrite filter_keeps_all.
  - rewrite search_inventory_one_pass, take_take. f_equal.
  - apply List.Forall_forall. intros v Hv.
    apply search_inventory_member in Hv as (_ & -> & ->). reflexivity.
Qed.

(** ** The knowledge base lookup *)

Lemma same_model_test (mk mdl : string) (entry : KnowledgeEntry) :
  String.eqb (Py.lower (kb_make entry)) (Py.lower mk)
  && String.eqb (Py.lower (kb_model entry)) (Py.lower mdl) = true
  <-> same_model mk mdl entry.
Proof.
  unfold same_model. rewrite andb_true_iff, !String.eqb_eq. reflexivity.
Qed.

(** The lookup returns the FIRST entry of the table whose lower-cased make
    and model equal the lower-cased arguments, and nothing exactly when no
    entry does. *)
Theorem vehicle_specs_first_match
    (knowledge_base : list KnowledgeEntry) (mk mdl : string) :
  (forall entry,
      _get_vehicle_specs knowledge_base mk mdl = Some entry <->
      exists before after,
        knowledge_base = (before ++ entry :: after)%list
        /\ same_model mk mdl entry
        /\ Forall (fun e => ~ same_model mk mdl e) before)
  /\ (_get_vehicle_specs knowledge_base mk mdl = None <->
      Forall (fun e => ~ same_model mk mdl e) knowledge_base).
Proof.
  split.
  - induction knowledge_base as [|e kb IH]; intros entry; simpl.
    + split; [discriminate|]. intros (before & after & E & _).
      destruct before; discriminate.
    + destruct (String.eqb _ _ && String.eqb _ _) eqn:T.
      * apply same_model_test in T. split.
        -- intros [= <-]. exists [], kb. repeat split; [apply T | apply T | constructor].
        -- intros (before & after & E & Hs & Hb).
           destruct before as [|b before]; simpl in E; injection E as <- ->.
           ++ reflexivity.
           ++ inversion Hb; subst. contradiction.
      * assert (~ same_model mk mdl e) as Hne
          by (intros Hs; apply same_model_test in Hs; congruence).
        rewrite IH. split.
        -- intros (before & after & -> & Hs & Hb).
           exists (e :: before), after. repeat split; try apply Hs.
           constructor; assumption.
        -- intros (before & after & E & Hs & Hb).
           destruct before as [|b before]; simpl in E; injection E as <- ->.
           ++ contradiction.
           ++ exists before, after. inversion Hb; subst. repeat split; try apply Hs.
              assumption.
  - induction knowledge_base as [|e kb IH]; simpl.
    + split; [constructor | reflexivity].
    + destruct (String.eqb _ _ && String.eqb _ _) eqn:T.
      * apply same_model_test in T. split; [discriminate|].
        intros H. inversion H; subst. contradiction.
      * rewrite IH. split.
        -- intros H. constructor; [|exact H].
           intros Hs. apply same_model_test in Hs. congruence.
        -- intros H. inversion H; assumption.
Qed.

Example vehicle_specs_sample :
  _get_vehicle_specs
    [mkKnowledgeEntry "Honda" "CR-V" (Some ["Honda Sensing"]);
     mkKnowledgeEntry "HONDA" "cr-v" None] "honda" "Cr-V"
  = Some (mkKnowledgeEntry "Honda" "CR-V" (Some ["Honda Sensing"])).
Proof. reflexivity. Qed.

(** ** The research task *)

Lemma format_one_fails (knowledge_base : list KnowledgeEntry) (v : Vehicle) :
  _format_vehicle_recommendation knowledge_base v = None <-> has_display_keys v = false.
Proof.
  unfold _format_vehicle_recommendation, has_display_keys.
  destruct (mileage v), (condition v), (fuel_economy v), (safety_rating v), (features v);
    simpl; split; intros H; first [reflexivity | discriminate H].
Qed.

Lemma format_one_shows (knowledge_base : list KnowledgeEntry) (v : Vehicle)
    (r : Recommendation) :
  _format_vehicle_recommendation knowledge_base v = Some r ->
  rec_vehicle r = v
  /\ Some (rec_mileage r) = mileage v
  /\ Some (rec_condition r) = condition v
  /\ rec_key_features r = take 5 (default [] (features v))
  /\ rec_specs r = _get_vehicle_specs knowledge_base (make v) (model v).
Proof.
  unfold _format_vehicle_recommendation.
  destruct (mileage v), (condition v), (fuel_economy v), (safety_rating v), (features v);
    try discriminate.
  intros [= <-]. repeat split.
Qed.

Lemma format_all_fails (knowledge_base : list KnowledgeEntry) (vs : list Vehicle) :
  format_all knowledge_base vs = None <->
  exists v, In v vs /\ has_display_keys v = false.
Proof.
  induction vs as [|v vs IH]; simpl.
  - split; [discriminate | intros (v & [] & _)].
  - destruct (_format_vehicle_recommendation knowledge_base v) as [r|] eqn:E.
    + assert (has_display_keys v = true) as Hv.
      { destruct (has_display_keys v) eqn:K; [reflexivity|].
        apply format_one_fails with (knowledge_base := knowledge_base) in K. congruence. }
      destruct (format_all knowledge_base vs) as [rs|].
      * split; [discriminate|]. intros (w & [<-|Hw] & K); [congruence|].
        assert (@None (list Recommendation) = None) as N by reflexivity.
        destruct IH as [_ IH]. discriminate IH. exists w. split; assumption.
      * split; [|reflexivity]. intros _.
        destruct (proj1 IH eq_refl) as (w & Hw & K). exists w. split; [right|]; assumption.
    + split; [|reflexivity]. intros _. exists v. split; [left; reflexivity|].
      apply format_one_fails with (knowledge_base := knowledge_base). exact E.
Qed.

Lemma format_all_shows (knowledge_base : list KnowledgeEntry) (vs : list Vehicle)
    (rs : list Recommendation) :
  format_all knowledge_base vs = Some rs ->
  map rec_vehicle rs = vs
  /\ Forall (fun r =>
               rec_key_features r = take 5 (default [] (features (rec_vehicle r)))
               /\ rec_specs r = _get_vehicle_specs knowledge_base
                                  (make (rec_vehicle r)) (model (rec_vehicle r))) rs.
Proof.
  revert rs. induction vs as [|v vs IH]; intros rs; simpl.
  - intros [= <-]. split; [reflexivity | constructor].
  - destruct (_format_vehicle_recommendation knowledge_base v) as [r|] eqn:E;
      [|discriminate].
    destruct (format_all knowledge_base vs) as [rs'|]; [|discriminate].
    intros [= <-]. destruct (IH rs' eq_refl) as [Hmap Hall].
    destruct (format_one_shows _ _ _ E) as (Hv & _ & _ & Hf & Hs).
    split; [simpl; rewrite Hv, Hmap; reflexivity|].
    constructor; [rewrite Hv; split; assumption | exact Hall].
Qed.

(** The research task is built from the first three matches of the search,
    and only when each of them has the keys the formatter subscripts
    (mileage, condition, fuel_economy, safety_rating, features): a record
    that passes the search without one of them makes the task fail, and a
    message without scheduling cue then gets the apology with no agent,
    whatever the generation service would answer.  A task that is built goes
    to the research agent and shows exactly those matches, all of them in
    the store and meeting the extracted criteria. *)
Theorem research_needs_display_keys
    (inventory : list Vehicle) (knowledge_base : list KnowledgeEntry)
    (semantic : string) (message : string) :
  (_create_vehicle_search_task inventory knowledge_base semantic message = None <->
     exists v,
       In v (take 3 (_search_inventory inventory (_extract_search_criteria message)))
       /\ has_display_keys v = false)
  /\ (forall task,
        _create_vehicle_search_task inventory knowledge_base semantic message = Some task ->
        agent task = research_agent
        /\ exists shown kb_context,
             description task
             = ResearchPrompt message (_extract_search_criteria message) shown kb_context
             /\ map rec_vehicle shown
                = take 3 (_search_inventory inventory (_extract_search_criteria message))
             /\ Forall (fun r =>
                          In (rec_vehicle r) inventory
                          /\ Wanted (_extract_search_criteria message) (rec_vehicle r)
                          /\ rec_key_features r
                             = take 5 (default [] (features (rec_vehicle r))))
                  shown)
  /\ (forall env conversations conversation_id,
        semantic_results env = semantic ->
        (forall k, In k scheduling_keywords -> ~ Py.Substring k (Py.lower message)) ->
        (exists v,
            In v (take 3 (_search_inventory inventory (_extract_search_criteria message)))
            /\ has_display_keys v = false) ->
        snd (process_customer_query inventory knowledge_base env conversations
               message conversation_id)
        = mkReply apology (resolve_id env conversation_id) [] []).
Proof.
  assert (_create_vehicle_search_task inventory knowledge_base semantic message = None <->
          exists v,
            In v (take 3 (_search_inventory inventory (_extract_search_criteria message)))
            /\ has_display_keys v = false) as Hfail.
  { rewrite <- format_all_fails with (knowledge_base := knowledge_base).
    unfold _create_vehicle_search_task.
    destruct (format_all knowledge_base _); split; congruence. }
  split; [exact Hfail|]. split.
  - intros task. unfold _create_vehicle_search_task.
    destruct (format_all knowledge_base _) as [rs|] eqn:E; [|discriminate].
    intros [= <-]. split; [reflexivity|].
    destruct (format_all_shows _ _ _ E) as [Hmap Hall].
    eexists _, _. split; [reflexivity|]. split; [exact Hmap|].
    apply List.Forall_forall. intros r Hr.
    rewrite List.Forall_forall in Hall. destruct (Hall r Hr) as [Hf _].
    assert (In (rec_vehicle r)
              (_search_inventory inventory (_extract_search_criteria message))) as Hs.
    { apply list_elem_of_In.
      eapply elem_of_sublist; [|apply sublist_take with (i := 3)].
      apply list_elem_of_In. rewrite <- Hmap. apply in_map, Hr. }
    destruct (search_member_wanted inventory _ _ Hs) as [Hin Hw].
    split; [exact Hin | split; [exact Hw | exact Hf]].
  - intros env conversations conversation_id <- Hnone Hbad.
    apply any_in_false in Hnone. apply Hfail in Hbad.
    rewrite process_reply, dispatch_research by exact Hnone.
    rewrite Hbad. reflexivity.
Qed.

Lemma research_needs_display_keys_witness :
  snd (process_customer_query back_lot [] env_up ∅ "any truck?" (Some "c-9"))
  = mkReply apology "c-9" [] [].
Proof.
  apply (proj2 (proj2 (research_needs_display_keys back_lot [] EmptyString
                         "any truck?")) env_up ∅ (Some "c-9")).
  - reflexivity.
  - apply any_in_false. reflexivity.
  - exists truck_bare. split; [left; reflexivity | reflexivity].
Defined.

(** ** Identifiers drawn from [uuid4] *)

Lemma hex_char_lower_hex (k : nat) (n : Z) :
  is_lower_hex (Uuid.hex_char (Uuid.nibble k n)) = true.
Proof.
  pose proof (nibble_range k n) as H.
  assert (exists d : nat, (d < 16)%nat /\ Uuid.nibble k n = Z.of_nat d) as (d & Hd & ->).
  { exists (Z.to_nat (Uuid.nibble k n)). split; lia. }
  do 16 (destruct d as [|d]; [reflexivity|]). lia.
Qed.

Lemma uuid_text_length (u : Z) : String.length (Uuid.str u) = 36.
Proof. cbv -[Uuid.nibble Uuid.hex_char]. reflexivity. Qed.

Lemma uuid_text_not_empty (u : Z) : Uuid.str u <> EmptyString.
Proof.
  intros E. pose proof (uuid_text_length u) as H. rewrite E in H. discriminate.
Qed.

(** The text of a UUID has hyphens at the positions 8, 13, 18 and 23 and
    lower-case hexadecimal digits everywhere else. *)
Lemma uuid_text_positions (u : Z) (i : nat) (c : ascii) :
  String.get i (Uuid.str u) = Some c ->
  if (i =? 8)%nat || (i =? 13)%nat || (i =? 18)%nat || (i =? 23)%nat
  then c = "-"%char
  else is_lower_hex c = true.
Proof.
  revert c.
  cbv -[Uuid.nibble Uuid.hex_char is_lower_hex Nat.eqb orb String.get].
  do 36 (destruct i as [|i];
         [cbn; intros c [= <-]; first [reflexivity | apply hex_char_lower_hex]|]).
  cbn. discriminate.
Qed.


Lemma upper_hex_char_injective (a b : Z) :
  (0 <= a < 16)%Z -> (0 <= b < 16)%Z ->
  Py.upper_char (Uuid.hex_char a) = Py.upper_char (Uuid.hex_char b) -> a = b.
Proof.
  intros Ha Hb.
  assert (exists d : nat, (d < 16)%nat /\ a = Z.of_nat d) as (d & Hd & ->)
    by (exists (Z.to_nat a); split; lia).
  assert (exists e : nat, (e < 16)%nat /\ b = Z.of_nat e) as (e & He & ->)
    by (exists (Z.to_nat b); split; lia).
  clear Ha Hb.
  do 16 (destruct d as [|d]; [do 16 (destruct e as [|e];
           [first [reflexivity | vm_compute; discriminate]|]); lia|]).
  lia.
Qed.

Lemma nibble_char_eq (j k : nat) (u1 u2 : Z) :
  Py.upper_char (Uuid.hex_char (Uuid.nibble j u1))
  = Py.upper_char (Uuid.hex_char (Uuid.nibble k u2))
  <-> Uuid.nibble j u1 = Uuid.nibble k u2.
Proof.
  split; [|intros ->; reflexivity].
  apply upper_hex_char_injective; apply nibble_range.
Qed.

(** Two draws give the same confirmation code exactly when their leading
    hexadecimal digits agree: the five leading ones for the code of the
    scheduling task, the eight leading ones for the code of a booking.  The
    rest of the draw plays no part, so codes of different bookings can
    coincide. *)
Theorem confirmation_codes_coincide (u1 u2 : Z) :
  (scheduling_confirmation u1 = scheduling_confirmation u2 <->
     forall k, 27 <= k < 32 -> Uuid.nibble k u1 = Uuid.nibble k u2)
  /\ (booking_confirmation u1 = booking_confirmation u2 <->
     forall k, 24 <= k < 32 -> Uuid.nibble k u1 = Uuid.nibble k u2).
Proof.
  split.
  - cbv -[Uuid.nibble Uuid.hex_char Py.upper_char]. split.
    + intros E k Hk. injection E as E1 E2 E3 E4 E5.
      apply nibble_char_eq in E1, E2, E3, E4, E5.
      assert (k = 27 \/ k = 28 \/ k = 29 \/ k = 30 \/ k = 31) as Hc by lia.
      decompose [or] Hc; subst k; assumption.
    + intros H.
      rewrite (H 27), (H 28), (H 29), (H 30), (H 31) by lia. reflexivity.
  - cbv -[Uuid.nibble Uuid.hex_char Py.upper_char]. split.
    + intros E k Hk. injection E as E1 E2 E3 E4 E5 E6 E7 E8.
      apply nibble_char_eq in E1, E2, E3, E4, E5, E6, E7, E8.
      assert (k = 24 \/ k = 25 \/ k = 26 \/ k = 27 \/ k = 28 \/ k = 29 \/ k = 30 \/ k = 31)
        as Hc by lia.
      decompose [or] Hc; subst k; assumption.
    + intros H.
      rewrite (H 24), (H 25), (H 26), (H 27), (H 28), (H 29), (H 30), (H 31) by lia.
      reflexivity.
Qed.

Example two_draws_one_code :
  scheduling_confirmation 0x3f2a9c1e5b7d4e8fa1b2c3d4e5f60718
  = scheduling_confirmation 0x3f2a9000000040008000000000000000.
Proof. reflexivity. Qed.

(** ** One call and the store *)

Lemma resolve_id_not_empty (env : Env) (conversation_id : option string) :
  resolve_id env conversation_id <> EmptyString.
Proof.
  destruct conversation_id as [[|c s]|]; simpl;
    first [apply uuid_text_not_empty | discriminate].
Qed.

Section CallProperties.

Variable inventory : list Vehicle.
Variable knowledge_base : list KnowledgeEntry.

Lemma reply_conversation_id (env : Env) (conversations : gmap string (list Turn))
    (message : string) (cid : option string) :
  conversation_id
    (snd (process_customer_query inventory knowledge_base env conversations message cid))
  = resolve_id env cid.
Proof.
  rewrite process_reply.
  destruct (dispatch inventory knowledge_base env message) as [[used text]|]; reflexivity.
Qed.

(** The identifier in the reply is never empty and names the conversation
    the message went to: the store holds, under it, the earlier turns of
    that conversation followed by this user turn, also when the generation
    failed; a later call that passes it back is filed under the same
    identifier; and every other conversation is left as it was. *)
Theorem reply_identifies_the_conversation
    (env : Env) (conversations : gmap string (list Turn))
    (message : string) (cid : option string) :
  let result :=
    process_customer_query inventory knowledge_base env conversations message cid in
  conversation_id (snd result) <> EmptyString
  /\ fst result !! conversation_id (snd result)
     = Some (default [] (conversations !! conversation_id (snd result))
               ++ [mkTurn user message (Uuid.str (uuid_timestamp env))])%list
  /\ (forall env', resolve_id env' (Some (conversation_id (snd result)))
                   = conversation_id (snd result))
  /\ (forall k, k <> conversation_id (snd result) ->
                fst result !! k = conversations !! k)
  /\ (forall given, given <> EmptyString -> cid = Some given ->
                    conversation_id (snd result) = given).
Proof.
  cbv zeta. rewrite reply_conversation_id, process_store.
  pose proof (resolve_id_not_empty env cid) as Hne.
  split; [exact Hne|]. split; [apply record_turn_same|].
  split; [intros env'; apply resolve_id_given, Hne|].
  split; [intros k Hk; apply record_turn_other, Hk|].
  intros given Hg ->. apply resolve_id_given, Hg.
Qed.

(** A call without identifier, or with the empty one, answers with a
    generated identifier: the text of the draw, 36 characters long, with
    hyphens at the positions 8, 13, 18 and 23 and lower-case hexadecimal
    digits everywhere else; the stored turn is stamped with a text of the
    same form. *)
Theorem generated_identifier_format
    (env : Env) (conversations : gmap string (list Turn))
    (message : string) (cid : option string) :
  cid = None \/ cid = Some EmptyString ->
  let result :=
    process_customer_query inventory knowledge_base env conversations message cid in
  conversation_id (snd result) = Uuid.str (uuid_conversation env)
  /\ String.length (conversation_id (snd result)) = 36
  /\ (forall i c, String.get i (conversation_id (snd result)) = Some c ->
        if (i =? 8)%nat || (i =? 13)%nat || (i =? 18)%nat || (i =? 23)%nat
        then c = "-"%char
        else is_lower_hex c = true)
  /\ (exists earlier t,
        fst result !! conversation_id (snd result) = Some (earlier ++ [t])%list
        /\ String.length (timestamp t) = 36).
Proof.
  intros Hcid. cbv zeta. rewrite reply_conversation_id, process_store.
  assert (resolve_id env cid = Uuid.str (uuid_conversation env)) as ->
    by (destruct Hcid as [-> | ->]; reflexivity).
  split; [reflexivity|]. split; [apply uuid_text_length|].
  split; [apply uuid_text_positions|].
  eexists _, _. split; [apply record_turn_same|]. apply uuid_text_length.
Qed.

(** The reply has one of four agent lists: none, exactly when an exception
    was raised in the [try] block (by the agent framework on the task of the
    route, or while the research task was built), and then the text is the
    apology and there is no action; scheduling alone; research alone; or
    research then qualifier.  A non-empty list comes with the single action
    that repeats it. *)
Theorem reply_shape
    (env : Env) (conversations : gmap string (list Turn))
    (message : string) (cid : option string) :
  let reply :=
    snd (process_customer_query inventory knowledge_base env conversations message cid) in
  (agents_used reply = [] <-> try_body_raises inventory knowledge_base env message)
  /\ (agents_used reply = []
      /\ response reply = apology /\ actions_taken reply = []
      \/ (agents_used reply = ["scheduling"]
          \/ agents_used reply = ["research"]
          \/ agents_used reply = ["research"; "qualifier"])
         /\ actions_taken reply = [mkAction "agent_response" (agents_used reply)]).
Proof.
  cbv zeta. rewrite process_reply. unfold try_body_raises.
  destruct (Py.any_in scheduling_keywords (Py.lower message)) eqn:E.
  - rewrite dispatch_scheduling by exact E.
    destruct (kickoff env _); simpl.
    + split; [split; discriminate|]. right. split; [left|]; reflexivity.
    + split; [split; reflexivity|]. left. repeat split.
  - rewrite dispatch_research by exact E.
    destruct (_create_vehicle_search_task _ _ _ _) as [task|];
      [destruct (kickoff env task);
       [destruct (Py.any_in interest_keywords (Py.lower message))|]|]; simpl.
    + split; [split; discriminate|]. right. split; [|reflexivity]. auto.
    + split; [split; discriminate|]. right. split; [|reflexivity]. auto.
    + split; [split; reflexivity|]. left. repeat split.
    + split; [split; [intros _; exact I | reflexivity]|]. left. repeat split.
Qed.

End CallProperties.

(** ** The files of the tools *)

Lemma str_nat_injective (a b : nat) : str_nat a = str_nat b -> a = b.
Proof.
  unfold str_nat. intros H.
  apply DecimalNat.Unsigned.to_uint_inj.
  assert (Some (Nat.to_uint a) = Some (Nat.to_uint b)) as E
    by (rewrite <- !NilEmpty.usu, H; reflexivity).
  injection E as E. exact E.
Qed.

Lemma create_leads_appends (requests : list LeadRequest) (stored : option (list Lead)) :
  exists created,
    create_leads stored requests = (default [] stored ++ created)%list
    /\ map lead_id created
       = map (fun i => "LEAD-" +:+ str_nat (length (default [] stored) + 1001 + i))
           (seq 0 (length requests))
    /\ map lead_customer_name created = map lr_customer requests
    /\ Forall (fun lead => lead_status lead = "new") created.
Proof.
  revert stored. induction requests as [|r requests IH]; intros stored.
  - exists []. simpl. rewrite app_nil_r. repeat split. constructor.
  - cbn [create_leads create_crm_lead fst].
    destruct (IH (Some (default [] stored
                          ++ [mkLead (next_lead_id (default [] stored)) (lr_customer r)
                                (lr_interest r) (lr_budget r) (lr_timeline r)
                                (lr_contact r) (lr_now r) "new"])%list))
      as (created & Hfile & Hids & Hnames & Hstatus).
    eexists (_ :: created). split; [|split; [|split]].
    + rewrite Hfile. cbn [default from_option id]. rewrite <- app_assoc. reflexivity.
    + cbn [map length seq]. f_equal.
      * unfold next_lead_id. rewrite Nat.add_0_r. reflexivity.
      * rewrite Hids. cbn [default from_option id]. rewrite length_app. cbn [length].
        rewrite <- seq_shift, map_map. apply map_ext. intros i.
        do 2 f_equal. lia.
    + cbn [map lead_customer_name]. rewrite Hnames. reflexivity.
    + constructor; [reflexivity | exact Hstatus].
Qed.

(** Leads created one after the other are appended to the file in call
    order and leave the stored leads as they were; the i-th new lead
    (counted from 0) gets the number 1001 plus the length of the file before
    the calls plus i, and the new identifiers are pairwise different.  On a
    missing or empty file this makes every identifier of the file unique. *)
Theorem leads_are_numbered_in_sequence
    (stored : option (list Lead)) (requests : list LeadRequest) :
  exists created,
    create_leads stored requests = (default [] stored ++ created)%list
    /\ map lead_id created
       = map (fun i => "LEAD-" +:+ str_nat (length (default [] stored) + 1001 + i))
           (seq 0 (length requests))
    /\ map lead_customer_name created = map lr_customer requests
    /\ Forall (fun lead => lead_status lead = "new") created
    /\ NoDup (map lead_id created).
Proof.
  destruct (create_leads_appends requests stored)
    as (created & Hfile & Hids & Hnames & Hstatus).
  exists created. repeat split; try assumption.
  rewrite Hids.
  assert (Inj eq eq
            (fun i => "LEAD-" +:+ str_nat (length (default [] stored) + 1001 + i)))
    as Hinj.
  { intros i j E. injection E as E. apply str_nat_injective in E. lia. }
  apply (NoDup_fmap_2 _). apply NoDup_seq.
Qed.

Example first_leads :
  map lead_id
    (create_leads None
       [mkLeadRequest "t1" "Ann" "SUV" "30k" "soon" "ann@example.org";
        mkLeadRequest "t2" "Bob" "truck" "Not specified" "Not specified" EmptyString])
  = ["LEAD-1001"; "LEAD-1002"].
Proof. reflexivity. Qed.

(** The numbering counts the entries of the file, so it repeats a number
    once an entry has been removed from the file. *)
Example lead_number_reused_after_removal :
  map lead_id
    (create_leads
       (Some [mkLead "LEAD-1002" "Bob" "truck" "Not specified" "Not specified"
                EmptyString "t2" "new"])
       [mkLeadRequest "t3" "Cy" "sedan" "25k" "later" EmptyString])
  = ["LEAD-1002"; "LEAD-1002"].
Proof. reflexivity. Qed.

(** Bookings made one after the other are appended to the appointments file
    in call order and leave the stored appointments as they were; every new
    appointment is pending, at the fixed dealership address, and carries the
    code made from its own draw. *)
Theorem bookings_are_appended
    (requests : list BookingRequest) (stored : option (list Appointment)) :
  exists created,
    book_all stored requests = (default [] stored ++ created)%list
    /\ map confirmation_number created
       = map (fun r => booking_confirmation (br_uuid r)) requests
    /\ map customer_name created = map br_customer requests
    /\ Forall (fun a => status a = "pending"
                        /\ location a = "AutoXloo Premium Dealership, 123 Main St")
         created.
Proof.
  revert stored. induction requests as [|r requests IH]; intros stored.
  - exists []. simpl. rewrite app_nil_r. repeat split. constructor.
  - cbn [book_all book_test_drive fst].
    match goal with |- context [book_all (Some ?file) requests] =>
      destruct (IH (Some file)) as (created & Hfile & Hcodes & Hnames & Hfixed)
    end.
    eexists (_ :: created). split; [|split; [|split]].
    + rewrite Hfile. cbn [default from_option id]. rewrite <- app_assoc. reflexivity.
    + cbn [map confirmation_number]. rewrite Hcodes. reflexivity.
    + cbn [map customer_name]. rewrite Hnames. reflexivity.
    + constructor; [split; reflexivity | exact Hfixed].
Qed.

(** ** The HTTP surface *)

(** The vehicle endpoint answers with the FIRST vehicle of the inventory
    that carries the stock number, and with the 404 error exactly when no
    vehicle carries it; it raises no other error. *)
Theorem get_vehicle_first_or_404 (inventory_data : list Vehicle) (stock : string) :
  (forall v,
      get_vehicle inventory_data stock = Ok v <->
      exists before after,
        inventory_data = (before ++ v :: after)%list
        /\ stock_number v = stock
        /\ Forall (fun w => stock_number w <> stock) before)
  /\ (get_vehicle inventory_data stock = HttpError 404 "Vehicle not found" <->
      Forall (fun w => stock_number w <> stock) inventory_data)
  /\ (forall code detail,
        get_vehicle inventory_data stock = HttpError code detail ->
        code = 404%Z /\ detail = "Vehicle not found").
Proof.
  unfold get_vehicle. split; [|split].
  - induction inventory_data as [|w l IH]; intros v; simpl.
    + split; [discriminate|]. intros (before & after & E & _).
      destruct before; discriminate.
    + destruct (String.eqb (stock_number w) stock) eqn:T.
      * apply String.eqb_eq in T. split.
        -- intros [= <-]. exists [], l. repeat split; [exact T | constructor].
        -- intros (before & after & E & Hs & Hb).
           destruct before as [|b before]; simpl in E; injection E as <- ->.
           ++ reflexivity.
           ++ inversion Hb; subst. contradiction.
      * apply String.eqb_neq in T. rewrite IH. split.
        -- intros (before & after & -> & Hs & Hb).
           exists (w :: before), after. repeat split; [exact Hs|].
           constructor; assumption.
        -- intros (before & after & E & Hs & Hb).
           destruct before as [|b before]; simpl in E; injection E as <- ->.
           ++ contradiction.
           ++ exists before, after. inversion Hb; subst. repeat split; assumption.
  - induction inventory_data as [|w l IH]; simpl.
    + split; [constructor | reflexivity].
    + destruct (String.eqb (stock_number w) stock) eqn:T.
      * apply String.eqb_eq in T. split; [discriminate|].
        intros H. inversion H; subst. contradiction.
      * apply String.eqb_neq in T. rewrite IH. split.
        -- intros H. constructor; assumption.
        -- intros H. inversion H; assumption.
  - intros code detail.
    destruct (List.find _ inventory_data); [discriminate|].
    intros [= <- <-]. split; reflexivity.
Qed.

Example get_vehicle_samples :
  get_vehicle showroom "AX10002" = Ok suv_32000
  /\ get_vehicle showroom "ax10002" = HttpError 404 "Vehicle not found".
Proof. split; reflexivity. Qed.

(** The inventory endpoint always reports the size of the whole inventory
    and returns a prefix of it: the first [limit] vehicles (all of them when
    there are fewer) for a limit that is not negative, and for a negative
    limit all but the last [-limit] vehicles. *)
Theorem get_inventory_returns_a_prefix (inventory_data : list Vehicle) (limit : Z) :
  fst (get_inventory inventory_data limit) = length inventory_data
  /\ snd (get_inventory inventory_data limit) `prefix_of` inventory_data
  /\ ((0 <= limit)%Z ->
      length (snd (get_inventory inventory_data limit))
      = Nat.min (Z.to_nat limit) (length inventory_data))
  /\ ((limit < 0)%Z ->
      length (snd (get_inventory inventory_data limit))
      = length inventory_data - Z.to_nat (- limit)).
Proof.
  unfold get_inventory, slice_list. cbn [fst snd].
  split; [reflexivity|]. split; [|split].
  - destruct (0 <=? limit)%Z; apply prefix_take.
  - intros H. apply Z.leb_le in H. rewrite H. apply length_take.
  - intros H. apply Z.leb_gt in H. rewrite H. rewrite length_take. lia.
Qed.

Lemma get_inventory_returns_a_prefix_witness :
  length (snd (get_inventory showroom 20)) = 3
  /\ snd (get_inventory showroom (-1)) = [suv_28000; suv_32000]
  /\ snd (get_inventory showroom (-7)) = [].
Proof.
  split; [|split; reflexivity].
  apply (proj1 (proj2 (proj2 (get_inventory_returns_a_prefix showroom 20)))). lia.
Defined.

Lemma min_of_spec (x : Z) (xs : list Z) :
  In (min_of x xs) (x :: xs) /\ Forall (fun y => (min_of x xs <= y)%Z) (x :: xs).
Proof.
  unfold min_of. revert x. induction xs as [|y ys IH]; intros x; simpl.
  - split; [left; reflexivity | repeat constructor; lia].
  - destruct (IH (Z.min x y)) as [Hin Hall]. split.
    + destruct Hin as [E|Hin]; [|right; right; exact Hin].
      rewrite <- E. destruct (Z.min_spec x y) as [[_ ->]|[_ ->]]; auto.
    + inversion Hall as [|? ? Hm Hys]; subst.
      constructor; [lia|]. constructor; [lia | exact Hys].
Qed.

Lemma max_of_spec (x : Z) (xs : list Z) :
  In (max_of x xs) (x :: xs) /\ Forall (fun y => (y <= max_of x xs)%Z) (x :: xs).
Proof.
  unfold max_of. revert x. induction xs as [|y ys IH]; intros x; simpl.
  - split; [left; reflexivity | repeat constructor; lia].
  - destruct (IH (Z.max x y)) as [Hin Hall]. split.
    + destruct Hin as [E|Hin]; [|right; right; exact Hin].
      rewrite <- E. destruct (Z.max_spec x y) as [[_ ->]|[_ ->]]; auto.
    + inversion Hall as [|? ? Hm Hys]; subst.
      constructor; [lia|]. constructor; [lia | exact Hys].
Qed.

Lemma sum_between (lo hi : Z) (xs : list Z) (a : Z) :
  Forall (fun y => (lo <= y <= hi)%Z) xs ->
  (a + Z.of_nat (length xs) * lo <= fold_left Z.add xs a
   <= a + Z.of_nat (length xs) * hi)%Z.
Proof.
  intros H. revert a. induction H as [|y ys Hy _ IH]; intros a; simpl length.
  - simpl. lia.
  - cbn [fold_left]. specialize (IH (a + y)%Z). lia.
Qed.

(** On a non-empty inventory the price statistics are prices that occur:
    the minimum and the maximum are the price of some vehicle and bound
    every price, and the average, an integer division rounded down, lies
    between them.  On an empty inventory all three are 0. *)
Theorem price_range_is_consistent (inventory_data : list Vehicle) :
  (inventory_data = [] -> stats_price_range inventory_data = mkPriceRange 0 0 0)
  /\ (inventory_data <> [] ->
      (exists v, In v inventory_data
                 /\ price v = price_min (stats_price_range inventory_data))
      /\ (exists v, In v inventory_data
                    /\ price v = price_max (stats_price_range inventory_data))
      /\ Forall (fun v => (price_min (stats_price_range inventory_data) <= price v
                           <= price_max (stats_price_range inventory_data))%Z)
           inventory_data
      /\ (price_min (stats_price_range inventory_data)
          <= price_avg (stats_price_range inventory_data)
          <= price_max (stats_price_range inventory_data))%Z).
Proof.
  split; [intros ->; reflexivity|].
  intros Hne. unfold stats_price_range.
  destruct inventory_data as [|v0 l]; [contradiction|]. clear Hne.
  change (map price (v0 :: l)) with (price v0 :: map price l).
  cbn [price_min price_max price_avg].
  destruct (min_of_spec (price v0) (map price l)) as [Hmin_in Hmin_all].
  destruct (max_of_spec (price v0) (map price l)) as [Hmax_in Hmax_all].
  change (price v0 :: map price l) with (map price (v0 :: l)) in *.
  assert (Forall (fun v => (min_of (price v0) (map price l) <= price v
                            <= max_of (price v0) (map price l))%Z) (v0 :: l)) as Hall.
  { apply List.Forall_forall. intros v Hv.
    rewrite List.Forall_forall in Hmin_all, Hmax_all.
    split; [apply Hmin_all | apply Hmax_all]; apply in_map; exact Hv. }
  split; [|split; [|split]].
  - apply in_map_iff in Hmin_in as (v & E & Hv). exists v. split; assumption.
  - apply in_map_iff in Hmax_in as (v & E & Hv). exists v. split; assumption.
  - exact Hall.
  - assert (Forall (fun y => (min_of (price v0) (map price l) <= y
                              <= max_of (price v0) (map price l))%Z)
              (map price (v0 :: l))) as Hprices.
    { apply List.Forall_forall. intros y Hy.
      apply in_map_iff in Hy as (v & <- & Hv).
      rewrite List.Forall_forall in Hall. apply Hall, Hv. }
    pose proof (sum_between _ _ _ 0%Z Hprices) as Hsum.
    rewrite length_map in Hsum. unfold sum_of.
    set (n := Z.of_nat (length (v0 :: l))) in *.
    assert (0 < n)%Z as Hn by (subst n; simpl length; lia).
    split.
    + apply Z.div_le_lower_bound; lia.
    + apply Z.div_le_upper_bound; lia.
Qed.

Lemma price_range_is_consistent_witness :
  stats_price_range showroom = mkPriceRange 21000 32000 27000
  /\ (price_min (stats_price_range showroom) <= price_avg (stats_price_range showroom)
      <= price_max (stats_price_range showroom))%Z.
Proof.
  split; [reflexivity|].
  apply (proj2 (price_range_is_consistent showroom)). discriminate.
Defined.

Lemma breakdown_loop (cat : string) (keys : list (option string))
    (acc : gmap string nat) :
  fold_left
    (fun categories key =>
       <[default "other" key := default 0 (categories !! default "other" key) + 1]>
         categories)
    keys acc !! cat
  = match length (List.filter (fun key => String.eqb (default "other" key) cat) keys) with
    | 0 => acc !! cat
    | S n => Some (default 0 (acc !! cat) + S n)
    end.
Proof.
  revert acc. induction keys as [|key keys IH]; intros acc; [reflexivity|].
  cbn [fold_left List.filter]. rewrite IH.
  destruct (String.eqb (default "other" key) cat) eqn:T.
  - apply String.eqb_eq in T. rewrite T. rewrite lookup_insert_eq.
    cbn [length default from_option id].
    destruct (length _); f_equal; lia.
  - apply String.eqb_neq in T. rewrite lookup_insert_ne by exact T. reflexivity.
Qed.

(** The category breakdown counts every vehicle once, under its category
    text, or under [other] when the record has no category: a category maps
    to the number of vehicles filed under it, and a category under which no
    vehicle is filed has no entry (rather than a zero). *)
Theorem category_breakdown_counts (category_keys : list (option string)) (cat : string) :
  _get_category_breakdown category_keys !! cat
  = match length (List.filter (fun key => String.eqb (default "other" key) cat)
                    category_keys) with
    | 0 => None
    | S n => Some (S n)
    end.
Proof.
  unfold _get_category_breakdown. rewrite breakdown_loop, lookup_empty. reflexivity.
Qed.

Example breakdown_sample :
  let keys := [Some "suv"; None; Some "other"; Some "suv"; None] in
  _get_category_breakdown keys !! "suv" = Some 2
  /\ _get_category_breakdown keys !! "other" = Some 3
  /\ _get_category_breakdown keys !! "SUV" = None
  /\ _get_category_breakdown (map (fun v => Some (category v)) showroom) !! "sedan"
     = Some 1.
Proof. cbv zeta. unfold _get_category_breakdown. rewrite !breakdown_loop. repeat split. Qed.

(** The availability count never exceeds the size of the inventory, and
    equals it exactly when no vehicle is marked unavailable. *)
Theorem available_count_bounded (inventory_data : list Vehicle) :
  stats_available inventory_data <= length inventory_data
  /\ (stats_available inventory_data = length inventory_data <->
      Forall (fun v => available v <> Some false) inventory_data).
Proof.
  unfold stats_available. induction inventory_data as [|v l [IHle IHeq]]; simpl.
  - split; [lia|]. split; [constructor | reflexivity].
  - destruct (is_available v) eqn:A; simpl.
    + apply is_available_spec in A. split; [lia|]. split.
      * intros E. constructor; [exact A | apply IHeq; lia].
      * intros H. inversion H; subst. f_equal. apply IHeq. assumption.
    + assert (~ available v <> Some false) as A'
        by (intros C; apply is_available_spec in C; congruence).
      split; [lia|]. split.
      * intros E. lia.
      * intros H. inversion H; subst. contradiction.
Qed.

(** ** Whole sessions *)

Section SessionProperties.

Variable inventory : list Vehicle.
Variable knowledge_base : list KnowledgeEntry.

Lemma run_calls_only_appends (calls : list (Env * string * option string))
    (store : gmap string (list Turn)) (k : string) (turns : list Turn) :
  store !! k = Some turns ->
  exists added,
    run_calls inventory knowledge_base store calls !! k = Some (turns ++ added)%list.
Proof.
  revert store turns. induction calls as [|[[env message] cid] calls IH];
    intros store turns Hk; simpl.
  - exists []. rewrite app_nil_r. exact Hk.
  - destruct (call_only_appends inventory knowledge_base env store message cid k turns Hk)
      as (added1 & H1 & _).
    destruct (IH _ _ H1) as (added & H). exists (added1 ++ added)%list.
    rewrite H, app_assoc. reflexivity.
Qed.

Lemma run_calls_origin (calls : list (Env * string * option string))
    (store : gmap string (list Turn)) (k : string) (turns : list Turn) (t : Turn) :
  run_calls inventory knowledge_base store calls !! k = Some turns ->
  In t turns ->
  (exists turns0, store !! k = Some turns0 /\ In t turns0)
  \/ (role t = user /\ exists call, In call calls /\ content t = snd (fst call)).
Proof.
  revert store. induction calls as [|[[env message] cid] calls IH];
    intros store Hk Ht; simpl in Hk.
  - left. exists turns. split; assumption.
  - destruct (IH _ Hk Ht) as [(turns1 & H1 & Hin)|(Hrole & call & Hcall & Hc)].
    + rewrite process_store in H1.
      destruct (decide (k = resolve_id env cid)) as [->|Hne].
      * rewrite record_turn_same in H1. injection H1 as <-.
        apply in_app_or in Hin as [Hin|[<-|[]]].
        -- destruct (store !! resolve_id env cid) as [turns0|] eqn:E; [|destruct Hin].
           left. exists turns0. split; [reflexivity | exact Hin].
        -- right. split; [reflexivity|].
           exists (env, message, cid). split; [left; reflexivity | reflexivity].
      * rewrite record_turn_other in H1 by exact Hne.
        left. exists turns1. split; assumption.
    + right. split; [exact Hrole|]. exists call. split; [right; exact Hcall | exact Hc].
Qed.

Lemma run_calls_keeps_messages (calls : list (Env * string * option string))
    (store : gmap string (list Turn)) (call : Env * string * option string) :
  In call calls ->
  exists k turns t,
    run_calls inventory knowledge_base store calls !! k = Some turns
    /\ In t turns /\ role t = user /\ content t = snd (fst call).
Proof.
  revert store. induction calls as [|[[env message] cid] calls IH];
    intros store Hcall; [destruct Hcall|].
  destruct Hcall as [<-|Hcall]; simpl.
  - pose proof (record_turn_same (resolve_id env cid)
                  (mkTurn user message (Uuid.str (uuid_timestamp env))) store) as H1.
    rewrite <- process_store with (inventory := inventory)
      (knowledge_base := knowledge_base) in H1.
    destruct (run_calls_only_appends calls _ _ _ H1) as (added & H).
    eexists _, _, _. split; [exact H|].
    split; [apply in_or_app; left; apply in_or_app; right; left; reflexivity|].
    split; reflexivity.
  - apply IH, Hcall.
Qed.

(** A session that starts on the empty store, with calls under any mix of
    identifiers (given, empty or missing) and with any outcome of the
    generation: every stored turn is a user turn whose text is the message
    of one of the calls, the message of every call is stored in some
    conversation, and no conversation of the store is empty. *)
Theorem store_holds_exactly_the_messages
    (calls : list (Env * string * option string)) :
  (forall k turns,
      run_calls inventory knowledge_base ∅ calls !! k = Some turns ->
      turns <> []
      /\ Forall (fun t => role t = user
                          /\ exists call, In call calls /\ content t = snd (fst call))
           turns)
  /\ (forall call, In call calls ->
        exists k turns t,
          run_calls inventory knowledge_base ∅ calls !! k = Some turns
          /\ In t turns /\ role t = user /\ content t = snd (fst call)).
Proof.
  split.
  - intros k turns Hk. split.
    + intros ->.
      assert (forall cs (store : gmap string (list Turn)),
                 (forall j, store !! j <> Some []) ->
                 forall j, run_calls inventory knowledge_base store cs !! j <> Some [])
        as Hnonempty.
      { induction cs as [|[[env message] cid] cs IH]; intros store Hs j; simpl.
        - apply Hs.
        - apply IH. intros i. rewrite process_store.
          destruct (decide (i = resolve_id env cid)) as [->|Hne].
          + rewrite record_turn_same. intros [= E].
            apply app_eq_nil in E as [_ E]. discriminate.
          + rewrite record_turn_other by exact Hne. apply Hs. }
      apply (Hnonempty calls ∅ (fun j => ltac:(rewrite lookup_empty; discriminate)) k Hk).
    + apply List.Forall_forall. intros t Ht.
      destruct (run_calls_origin calls ∅ k turns t Hk Ht) as [(turns0 & H0 & _)|H].
      * rewrite lookup_empty in H0. discriminate.
      * exact H.
  - intros call. apply run_calls_keeps_messages.
Qed.

End SessionProperties.

(** ** Concrete runs of the further properties *)

Lemma generated_identifier_format_witness :
  conversation_id (snd (process_customer_query showroom [] env_up ∅ "hello" None))
  = "3f2a9c1e-5b7d-4e8f-a1b2-c3d4e5f60718".
Proof.
  apply (generated_identifier_format showroom [] env_up ∅ "hello" None).
  left. reflexivity.
Defined.

Lemma extracted_price_is_limited_witness :
  max_price (_extract_search_criteria "an SUV below 35,000, say 35k") = Some 35000%Z
  /\ Py.Substring "below" (Py.lower "an SUV below 35,000, say 35k").
Proof.
  split; [reflexivity|].
  destruct (proj2 (proj2 (extracted_price_is_limited "an SUV below 35,000, say 35k"))
              35000%Z eq_refl) as [_ [H|H]].
  - apply contains_spec in H. discriminate H.
  - exact H.
Defined.

Lemma store_holds_exactly_the_messages_witness :
  exists k turns t,
    run_calls showroom [] ∅
      [(env_up, "hello", None); (env_down, "book a visit", Some "c-1");
       (env_up, "thanks", Some EmptyString)] !! k = Some turns
    /\ In t turns /\ role t = user /\ content t = "book a visit".
Proof.
  apply (proj2 (store_holds_exactly_the_messages showroom []
                  [(env_up, "hello", None); (env_down, "book a visit", Some "c-1");
                   (env_up, "thanks", Some EmptyString)])
           (env_down, "book a visit", Some "c-1")).
  right. left. reflexivity.
Defined.
